(** * The datapath of the 8-bit CPU emulator (utils.py)

    A shallow embedding of [utils.py]: the numeric codec
    ([binary_to_decimal], [decimal_to_binary], [hex_to_binary]), the
    register family, the RAM, the program counter, the flags and the ALU,
    followed by the properties of the specification that concern them.

    Conventions.
    - A Python [str] is a [string]; a character is a code point below 256.
    - A Python [int] is a [Z].
    - Objects live in a store ([heap]) and are designated by locations, so
      that the references an ALU or a flag keeps to other objects are
      references here too.
    - A call either returns or raises: [res]. *)

From Stdlib Require Import ZArith Lia Ascii String List.
From stdpp Require Import base gmap strings list.

Local Open Scope string_scope.
Local Open Scope Z_scope.

(** ** Outcomes of a call *)

Inductive exn : Type :=
| TypeError
| ValueError
| IndexError
| UnboundLocalError
| AssertionError (msg : string).

(** [Unmodelled] is not a Python exception: it is the outcome of following a
    reference to an object of another class than the one the embedding
    covers at that place (the operands of an ALU and the source of a Minus
    flag are registers, the source of a Carry flag is an ALU), or to a
    location that holds no object. It is kept apart from [Raise] so that no
    statement about Python's exceptions can be satisfied by it. *)
Inductive res (A : Type) : Type :=
| Ok (x : A)
| Raise (e : exn)
| Unmodelled.

Arguments Ok {A} x.
Arguments Raise {A} e.
Arguments Unmodelled {A}.

Definition res_bind {A B : Type} (m : res A) (k : A -> res B) : res B :=
  match m with
  | Ok x => k x
  | Raise e => Raise e
  | Unmodelled => Unmodelled
  end.

Notation "'let*' x := m 'in' k" := (res_bind m (fun x => k))
  (at level 10, x pattern, m at level 100, k at level 200) : stdpp_scope.

(** ** Python's built-ins used by the code *)

Module Py.

(** [len(s)] *)
Definition len (s : string) : Z := Z.of_nat (String.length s).

(** [s[n:]] for a constant [n >= 0]. *)
Fixpoint drop (n : nat) (s : string) : string :=
  match n, s with
  | O, _ => s
  | S _, EmptyString => EmptyString
  | S m, String _ r => drop m r
  end.

(** [s[:n]] for [n >= 0]. *)
Fixpoint take (n : nat) (s : string) : string :=
  match n, s with
  | O, _ => EmptyString
  | S _, EmptyString => EmptyString
  | S m, String c r => String c (take m r)
  end.

(** [s[:n]] for any integer [n]: a negative bound counts from the end
    and is clamped at the start of the string. *)
Definition slice_to (n : Z) (s : string) : string :=
  if n <? 0 then take (Z.to_nat (len s + n)) s else take (Z.to_nat n) s.

(** [s[0]]: the empty string has no first character. *)
Definition first (s : string) : res ascii :=
  match s with
  | EmptyString => Raise IndexError
  | String c _ => Ok c
  end.

(** [l[i]] on a list: indices [-len(l) .. -1] count from the end. *)
Definition getitem {A : Type} (l : list A) (i : Z) : res A :=
  let n := Z.of_nat (length l) in
  let j := if i <? 0 then i + n else i in
  if (0 <=? j) && (j <? n) then
    match l !! Z.to_nat j with
    | Some x => Ok x
    | None => Raise IndexError
    end
  else Raise IndexError.

(** ['0' * n] *)
Fixpoint zeros (n : nat) : string :=
  match n with
  | O => EmptyString
  | S m => String "0" (zeros m)
  end.

(** [s.zfill(width)]: pads on the left with ['0'] up to [width]
    characters; a leading sign stays in front of the padding. *)
Definition zfill (width : Z) (s : string) : string :=
  let fill := Z.to_nat (width - len s) in
  match s with
  | String c r =>
      if (Ascii.eqb c "+" || Ascii.eqb c "-")%bool
      then String c (zeros fill +:+ r)
      else zeros fill +:+ s
  | EmptyString => zeros fill
  end.

(** Does [c] occur in [chars]? *)
Fixpoint mem (c : ascii) (chars : string) : bool :=
  match chars with
  | EmptyString => false
  | String d r => (Ascii.eqb c d || mem c r)%bool
  end.

(** [s.lstrip(chars)]: removes every leading character that occurs in
    [chars] (a set of characters, not a prefix). *)
Fixpoint lstrip (chars : string) (s : string) : string :=
  match s with
  | EmptyString => EmptyString
  | String c r => if mem c chars then lstrip chars r else s
  end.

(** Binary digits of a positive number, most significant first. *)
Fixpoint pos_digits (p : positive) : string :=
  match p with
  | xH => "1"
  | xO q => pos_digits q +:+ "0"
  | xI q => pos_digits q +:+ "1"
  end.

(** [bin(n)] *)
Definition bin (n : Z) : string :=
  match n with
  | Z0 => "0b0"
  | Zpos p => "0b" +:+ pos_digits p
  | Zneg p => "-0b" +:+ pos_digits p
  end.

(** *** [int(s, base)]

    The literal grammar of CPython: optional white space, an optional
    sign, an optional base prefix ([0b], [0x], [0o], either case)
    followed by at most one underscore, then digits below the base
    separated by single underscores, then optional white space. *)

Definition is_space (c : ascii) : bool :=
  let n := N_of_ascii c in
  (((9 <=? n) && (n <=? 13)) || (n =? 32) || (n =? 133) || (n =? 160))%N.

Definition digit_value (c : ascii) : option Z :=
  let n := Z.of_N (N_of_ascii c) in
  if (48 <=? n) && (n <=? 57) then Some (n - 48)
  else if (97 <=? n) && (n <=? 122) then Some (n - 97 + 10)
  else if (65 <=? n) && (n <=? 90) then Some (n - 65 + 10)
  else None.

Definition is_digit (base : Z) (c : ascii) : bool :=
  match digit_value c with
  | Some d => d <? base
  | None => false
  end.

Fixpoint skip_spaces (s : string) : string :=
  match s with
  | EmptyString => EmptyString
  | String c r => if is_space c then skip_spaces r else s
  end.

Definition prefix_letter (base : Z) (c : ascii) : bool :=
  if base =? 16 then (Ascii.eqb c "x" || Ascii.eqb c "X")%bool
  else if base =? 8 then (Ascii.eqb c "o" || Ascii.eqb c "O")%bool
  else if base =? 2 then (Ascii.eqb c "b" || Ascii.eqb c "B")%bool
  else false.

Definition skip_prefix (base : Z) (s : string) : string :=
  match s with
  | String "0" (String c r) =>
      if prefix_letter base c then
        match r with
        | String "_" r' => r'
        | _ => r
        end
      else s
  | _ => s
  end.

(** The digit loop: [prev] is the character read last, [acc] the value
    of the digits read so far. Returns the value and what follows the
    digits; two underscores in a row and a final underscore are
    refused. *)
Fixpoint scan_digits (base : Z) (prev : ascii) (acc : Z) (s : string)
  : option (Z * string) :=
  let stop := if Ascii.eqb prev "_" then None else Some (acc, s) in
  match s with
  | EmptyString => stop
  | String c r =>
      if Ascii.eqb c "_" then
        if Ascii.eqb prev "_" then None else scan_digits base c acc r
      else
        match digit_value c with
        | Some d => if d <? base then scan_digits base c (acc * base + d) r
                    else stop
        | None => stop
        end
  end.

Definition int (s : string) (base : Z) : res Z :=
  let s1 := skip_spaces s in
  let '(sign, s2) :=
    match s1 with
    | String "+" r => (1, r)
    | String "-" r => (-1, r)
    | _ => (1, s1)
    end in
  let s3 := skip_prefix base s2 in
  match s3 with
  | EmptyString => Raise ValueError
  | String c _ =>
      if is_digit base c then
        match scan_digits base "000" 0 s3 with
        | Some (v, rest) =>
            match skip_spaces rest with
            | EmptyString => Ok (sign * v)
            | _ => Raise ValueError
            end
        | None => Raise ValueError
        end
      else Raise ValueError
  end.

End Py.

(** ** The numeric codec *)

(** [binary_to_decimal(binary_string)]: two's-complement decoding, the
    width being the length of the string. *)
Definition binary_to_decimal (binary_string : string) : res Z :=
  let* c := Py.first binary_string in
  if Ascii.eqb c "1" then
    let* n := Py.int binary_string 2 in
    Ok (n - 2 ^ Py.len binary_string)
  else Py.int binary_string 2.

(** [2**bit_width] is a float when [bit_width] is negative, and [bin]
    refuses the float sum. *)
Definition decimal_to_binary (decimal_number : Z) (bit_width : Z) : res string :=
  let* binary_string :=
    if decimal_number <? 0 then
      if bit_width <? 0 then Raise TypeError
      else Ok (Py.drop 2 (Py.bin (decimal_number + 2 ^ bit_width)))
    else Ok (Py.drop 2 (Py.bin decimal_number)) in
  Ok (Py.zfill bit_width binary_string).

Definition hex_to_binary (hex_number : string) (bit_width : Z) : res string :=
  let hex_number := Py.lstrip "0x" hex_number in
  let* n := Py.int hex_number 16 in
  let binary_number :=
    Py.slice_to bit_width (Py.zfill bit_width (Py.drop 2 (Py.bin n))) in
  Ok binary_number.

(** ** Objects and the store *)

Definition loc : Type := nat.

(** The objects of the classes of [utils.py], with their attributes.
    [RegisterObj] stands for [Register], [ByteRegister], [NibbleRegister],
    [InstructionRegister] and [ProgramCounter], which share [read] and
    [write] and differ in their initial state and extra methods;
    [FlagObj] for [Flag] and its three subclasses. *)
Inductive obj : Type :=
| RegisterObj (state : string)
| RAMObj (state : list loc)
| FlagObj (state : Z) (reg : loc)
| ALUObj (a b : loc) (state : string).

Abbreviation heap := (gmap loc obj).

(** What a caller may hand over as [data]. *)
Inductive value : Type :=
| VStr (s : string)
| VInt (n : Z)
| VNone.

(** Computations on the store that may raise. *)
Definition M (A : Type) : Type := heap -> res (A * heap).

Definition ret {A : Type} (x : A) : M A := fun h => Ok (x, h).

Definition bind {A B : Type} (m : M A) (k : A -> M B) : M B :=
  fun h =>
    match m h with
    | Ok (x, h') => k x h'
    | Raise e => Raise e
    | Unmodelled => Unmodelled
    end.

Definition lift {A : Type} (r : res A) : M A :=
  fun h =>
    match r with
    | Ok x => Ok (x, h)
    | Raise e => Raise e
    | Unmodelled => Unmodelled
    end.

Definition raise {A : Type} (e : exn) : M A := fun _ => Raise e.

Notation "x <- m ;; k" := (bind m (fun x => k))
  (at level 100, m at next level, right associativity) : stdpp_scope.
Notation "m ;;; k" := (bind m (fun _ => k))
  (at level 100, right associativity) : stdpp_scope.

(** A new object at a location not in use. *)
Definition alloc (o : obj) : M loc :=
  fun h => let l := fresh (dom h) in Ok (l, <[l := o]> h).

(** Python's call protocol for a method declared [def m(self)]: a call
    with further positional arguments raises [TypeError] before the body
    runs. *)
Definition only_self {A B : Type} (args : list A) (body : M B) : M B :=
  match args with
  | [] => body
  | _ :: _ => raise TypeError
  end.

Module Register.

(** [self.state] *)
Definition get_state (self : loc) : M string :=
  fun h =>
    match h !! self with
    | Some (RegisterObj s) => Ok (s, h)
    | _ => Unmodelled
    end.

(** [self.state = data] *)
Definition set_state (self : loc) (data : string) : M unit :=
  fun h =>
    match h !! self with
    | Some (RegisterObj _) => Ok (tt, <[self := RegisterObj data]> h)
    | _ => Unmodelled
    end.

Definition read (self : loc) : M string := get_state self.

Definition write (self : loc) (data : string) : M unit := set_state self data.

(** [Register()]: the plain register starts empty. *)
Definition init : M loc := alloc (RegisterObj "").

End Register.

Module ByteRegister.
(** [ByteRegister()] *)
Definition init : M loc := alloc (RegisterObj "00000000").
End ByteRegister.

Module NibbleRegister.
(** [NibbleRegister()] *)
Definition init : M loc := alloc (RegisterObj "0000").
End NibbleRegister.

Module RAM.

(** [[ByteRegister() for _ in range(n)]] *)
Fixpoint byte_registers (n : nat) : M (list loc) :=
  match n with
  | O => ret []
  | S m => r <- ByteRegister.init ;; rs <- byte_registers m ;; ret (r :: rs)
  end.

(** [RAM()] *)
Definition init : M loc :=
  state <- byte_registers 16 ;; alloc (RAMObj state).

(** [self.state] *)
Definition get_state (self : loc) : M (list loc) :=
  fun h =>
    match h !! self with
    | Some (RAMObj cells) => Ok (cells, h)
    | _ => Unmodelled
    end.

Definition write (self : loc) (data : value) (address : Z) : M unit :=
  match data with
  | VStr s =>
      if Py.len s =? 8 then
        state <- get_state self ;;
        r <- lift (Py.getitem state address) ;;
        Register.write r s
      else raise (AssertionError "size error")
  | _ => raise (AssertionError "data type error")
  end.

Definition read (self : loc) (address : Z) : M string :=
  state <- get_state self ;;
  r <- lift (Py.getitem state address) ;;
  Register.read r.

End RAM.

Module ProgramCounter.

(** [ProgramCounter()]: the constructor of [NibbleRegister]. *)
Definition init : M loc := NibbleRegister.init.

Definition advance (self : loc) : M unit :=
  state <- Register.get_state self ;;
  value <- lift (Py.int state 2) ;;
  let value := (value + 1) mod 2 ^ 4 in
  let string := Py.zfill 4 (Py.drop 2 (Py.bin value)) in
  Register.set_state self string.

End ProgramCounter.

Module Flag.

(** [Flag(reg)], also the constructor of the three subclasses. *)
Definition init (reg : loc) : M loc := alloc (FlagObj 0 reg).

(** [self.state] *)
Definition get_state (self : loc) : M Z :=
  fun h =>
    match h !! self with
    | Some (FlagObj s _) => Ok (s, h)
    | _ => Unmodelled
    end.

(** [self.reg] *)
Definition get_reg (self : loc) : M loc :=
  fun h =>
    match h !! self with
    | Some (FlagObj _ r) => Ok (r, h)
    | _ => Unmodelled
    end.

(** [self.state = v] *)
Definition set_state (self : loc) (v : Z) : M unit :=
  fun h =>
    match h !! self with
    | Some (FlagObj _ r) => Ok (tt, <[self := FlagObj v r]> h)
    | _ => Unmodelled
    end.

End Flag.

Module FlagMinus.

(** [def update(self)]; [args] are the positional arguments of the call
    after [self]. *)
Definition update (self : loc) (args : list loc) : M unit :=
  only_self args (
    reg <- Flag.get_reg self ;;
    w <- Register.read reg ;;
    d <- lift (binary_to_decimal w) ;;
    if d <? 0 then Flag.set_state self 1 else Flag.set_state self 0).

(** [self.update(self)], then [return self.state]. *)
Definition read (self : loc) : M Z :=
  update self [self] ;;; Flag.get_state self.

End FlagMinus.

Module ALU.

(** [ALU(aRegister, bRegister)] *)
Definition init (aRegister bRegister : loc) : M loc :=
  alloc (ALUObj aRegister bRegister "00000000").

(** [self.a] *)
Definition get_a (self : loc) : M loc :=
  fun h =>
    match h !! self with
    | Some (ALUObj a _ _) => Ok (a, h)
    | _ => Unmodelled
    end.

(** [self.b] *)
Definition get_b (self : loc) : M loc :=
  fun h =>
    match h !! self with
    | Some (ALUObj _ b _) => Ok (b, h)
    | _ => Unmodelled
    end.

(** [self.state] *)
Definition get_state (self : loc) : M string :=
  fun h =>
    match h !! self with
    | Some (ALUObj _ _ s) => Ok (s, h)
    | _ => Unmodelled
    end.

(** [self.state = s] *)
Definition set_state (self : loc) (s : string) : M unit :=
  fun h =>
    match h !! self with
    | Some (ALUObj a b _) => Ok (tt, <[self := ALUObj a b s]> h)
    | _ => Unmodelled
    end.

(** [result] is bound by neither branch for a mode other than ['add']
    and ['sub'], and its use in the last statement then raises. *)
Definition update (self : loc) (mode : string) : M unit :=
  a <- get_a self ;;
  wa <- Register.read a ;;
  value_a <- lift (binary_to_decimal wa) ;;
  b <- get_b self ;;
  wb <- Register.read b ;;
  value_b <- lift (binary_to_decimal wb) ;;
  let result :=
    if String.eqb mode "add" then Some (value_a + value_b)
    else if String.eqb mode "sub" then Some (value_a - value_b)
    else None in
  match result with
  | None => raise UnboundLocalError
  | Some result =>
      s <- lift (decimal_to_binary result 8) ;;
      set_state self (Py.take 8 s)
  end.

Definition read (self : loc) (mode : string) : M string :=
  update self mode ;;; get_state self.

(** [self.read()], with the default mode, then [return self.state]. *)
Definition __str__ (self : loc) : M string :=
  read self "add" ;;; get_state self.

End ALU.

Module FlagCarry.

(** The watched object is an ALU: [self.reg.a] and [self.reg.b]. *)
Definition update (self : loc) : M unit :=
  reg <- Flag.get_reg self ;;
  a <- ALU.get_a reg ;;
  wa <- Register.read a ;;
  da <- lift (binary_to_decimal wa) ;;
  b <- ALU.get_b reg ;;
  wb <- Register.read b ;;
  db <- lift (binary_to_decimal wb) ;;
  if da + db >? 2 ^ 7 - 1 then Flag.set_state self 1
  else Flag.set_state self 0.

Definition read (self : loc) : M Z := Flag.get_state self.

End FlagCarry.

Module FlagZero.

Definition update (self : loc) : M unit :=
  reg <- Flag.get_reg self ;;
  w <- Register.read reg ;;
  d <- lift (binary_to_decimal w) ;;
  if d =? 0 then Flag.set_state self 1 else Flag.set_state self 0.

Definition read (self : loc) : M Z :=
  update self ;;; Flag.get_state self.

End FlagZero.

Module InstructionRegister.

(** [InstructionRegister()]: the constructor of [ByteRegister]. *)
Definition init : M loc := ByteRegister.init.

(** [self.read()[:4]] *)
Definition readOpCode (self : loc) : M string :=
  w <- Register.read self ;; ret (Py.take 4 w).

(** [self.read()[4:]] *)
Definition readOperand (self : loc) : M string :=
  w <- Register.read self ;; ret (Py.drop 4 w).

End InstructionRegister.

(** The ring counter refers to no other object and nothing refers to it
    from inside [utils.py]: it is a value handed from call to call. *)
Module RingCounter.

(** What [%] raises for a zero modulus. *)
Inductive error : Type := ZeroDivisionError.

Record t : Type := { state : Z; n_time_states : Z }.

(** [RingCounter(n_time_states)] *)
Definition init (n_time_states : Z) : t :=
  {| state := 0; n_time_states := n_time_states |}.

(** [self.state = (self.state + 1) % self.n_time_states]: Python's [%]
    takes the sign of the modulus, as [Z.modulo] does, and raises for a
    zero modulus. *)
Definition advance (self : t) : error + t :=
  if n_time_states self =? 0 then inl ZeroDivisionError
  else inr {| state := (state self + 1) mod n_time_states self;
              n_time_states := n_time_states self |}.

Definition read (self : t) : Z := state self.

End RingCounter.

(** The clock writes to a file. The files are a map from paths to their
    text; [open(path, "w")] starts from the empty text, [open(path, "a")]
    from the text the file has, or from the empty text when there is no
    such file; opening is taken to succeed. The argument [cpu] stands for
    the text [f"{cpu}"] is rendered to. *)
Module Clock.

Record t : Type := { state : Z; on : bool; log_file_path : string }.

(** [Clock(cpu, log_file_path)] *)
Definition init (log_file_path : string) : t :=
  {| state := 0; on := true; log_file_path := log_file_path |}.

(** The line break ['\n']. *)
Definition newline : string := String "010" EmptyString.

Definition advance (self : t) (cpu : string) (files : gmap string string)
  : t * gmap string string :=
  let path := log_file_path self in
  let files' :=
    if state self =? 0 then <[path := cpu +:+ newline]> files
    else <[path := default "" (files !! path) +:+ cpu +:+ newline]> files in
  ({| state := state self + 1; on := on self; log_file_path := path |},
   files').

End Clock.

(** ** Words and their values

    The vocabulary of the specification: bit strings of a given width,
    their unsigned reading and their two's-complement reading. *)

Fixpoint all_chars (p : ascii -> bool) (s : string) : bool :=
  match s with
  | EmptyString => true
  | String c r => p c && all_chars p r
  end.

Definition is_bit (c : ascii) : bool := Ascii.eqb c "0" || Ascii.eqb c "1".

(** A string over the alphabet ['0'], ['1']. *)
Definition bits (s : string) : bool := all_chars is_bit s.

(** An [n]-bit word. *)
Definition word (n : nat) (w : string) : Prop :=
  String.length w = n /\ bits w = true.

(** The number a string of digits denotes in a base, most significant
    digit first, continuing from [acc]. *)
Fixpoint digits_value (base acc : Z) (s : string) : Z :=
  match s with
  | EmptyString => acc
  | String c r =>
      digits_value base (acc * base + default 0 (Py.digit_value c)) r
  end.

(** The unsigned reading of a bit string. *)
Definition unsigned (w : string) : Z := digits_value 2 0 w.

(** The two's-complement reading: a leading ['1'] is the sign, and a
    negative word denotes its unsigned reading minus [2 ^ width]. *)
Definition signed (w : string) : Z :=
  match w with
  | String "1" _ => unsigned w - 2 ^ Py.len w
  | _ => unsigned w
  end.

(** A string of hexadecimal digits, either case. *)
Definition hex_digits (s : string) : bool := all_chars (Py.is_digit 16) s.

(** The number a string of hexadecimal digits denotes. *)
Definition hex_value (s : string) : Z := digits_value 16 0 s.

(** The representative of a number modulo [2 ^ 8] in the range of 8-bit
    two's complement, [-128 .. 127]. *)
Definition wrap8 (v : Z) : Z := (v + 2 ^ 7) mod 2 ^ 8 - 2 ^ 7.

(** Discards the store a computation ends in. *)
Definition result_of {A : Type} (r : res (A * heap)) : res A :=
  match r with
  | Ok (x, _) => Ok x
  | Raise e => Raise e
  | Unmodelled => Unmodelled
  end.

(** The RAM at [self] is as its constructor leaves it and as [write]
    keeps it: sixteen registers, each an object of its own. *)
Definition ram_ok (h : heap) (self : loc) : Prop :=
  exists cells : list loc,
    h !! self = Some (RAMObj cells) /\
    length cells = 16%nat /\
    NoDup cells /\
    forall c, c ∈ cells -> exists w, h !! c = Some (RegisterObj w).

(** [n] calls of [advance()] in a row. *)
Fixpoint advance_times (n : nat) (self : loc) : M unit :=
  match n with
  | O => ret tt
  | S m => ProgramCounter.advance self ;;; advance_times m self
  end.

(** ** Sample machines

    Stores as the constructors build them, used to evaluate the code on
    concrete inputs. *)

(** The store a computation ends in. *)
Definition store_after {A : Type} (m : M A) (h : heap) : heap :=
  match m h with
  | Ok (_, h') => h'
  | _ => h
  end.

(** Two byte registers holding [wa] and [wb] (locations 0 and 1), the ALU
    over them (location 2), a flag watching the ALU (location 3) and a
    flag watching the first register (location 4). *)
Definition datapath (wa wb : string) : heap :=
  store_after
    (a <- ByteRegister.init ;;
     b <- ByteRegister.init ;;
     u <- ALU.init a b ;;
     _ <- Flag.init u ;;
     _ <- Flag.init a ;;
     Register.write a wa ;;;
     Register.write b wb) ∅.

Definition loc_a : loc := 0%nat.
Definition loc_b : loc := 1%nat.
Definition loc_alu : loc := 2%nat.
Definition loc_carry : loc := 3%nat.
Definition loc_minus : loc := 4%nat.

(** A new RAM: its sixteen registers are at locations 0 to 15, the RAM
    itself at location 16. *)
Definition new_ram : heap := store_after RAM.init ∅.

Definition loc_ram : loc := 16%nat.

(** A new program counter, at location 0. *)
Definition new_counter : heap := store_after ProgramCounter.init ∅.

Definition loc_pc : loc := 0%nat.

(** ** More vocabulary *)

(** The two's-complement representative of a number at a width of
    [S n] bits, in [- 2 ^ n .. 2 ^ n - 1]. *)
Definition wrap (n : nat) (v : Z) : Z :=
  (v + 2 ^ Z.of_nat n) mod 2 ^ Z.of_nat (S n) - 2 ^ Z.of_nat n.

(** Every word the RAM at [self] stores has 8 characters. *)
Definition ram_words8 (h : heap) (self : loc) : Prop :=
  exists cells : list loc,
    h !! self = Some (RAMObj cells) /\
    forall c, c ∈ cells ->
      exists w, h !! c = Some (RegisterObj w) /\ String.length w = 8%nat.

(** [n] calls of the ring counter's [advance()] in a row. *)
Fixpoint ring_advance_times (n : nat) (self : RingCounter.t)
  : RingCounter.error + RingCounter.t :=
  match n with
  | O => inr self
  | S m =>
      match RingCounter.advance self with
      | inl e => inl e
      | inr self' => ring_advance_times m self'
      end
  end.

(** One call of the clock's [advance] for each snapshot, in order. *)
Fixpoint clock_ticks (snapshots : list string) (self : Clock.t)
    (files : gmap string string) : Clock.t * gmap string string :=
  match snapshots with
  | [] => (self, files)
  | cpu :: rest =>
      let '(self', files') := Clock.advance self cpu files in
      clock_ticks rest self' files'
  end.

(** The text of a log: each snapshot followed by a line break. *)
Fixpoint log_text (snapshots : list string) : string :=
  match snapshots with
  | [] => ""
  | cpu :: rest => cpu +:+ Clock.newline +:+ log_text rest
  end.

(** ** The built-ins on examples

    Values CPython gives for the same calls. *)

Example int_examples :
  Py.int " 101 " 2 = Ok 5 /\
  Py.int "0b_101" 2 = Ok 5 /\
  Py.int "-0b1" 2 = Ok (-1) /\
  Py.int "1__01" 2 = Raise ValueError /\
  Py.int "101_" 2 = Raise ValueError /\
  Py.int "" 2 = Raise ValueError /\
  Py.int "0b1" 16 = Ok 177 /\
  Py.int "0Xff" 16 = Ok 255 /\
  Py.int "x1" 16 = Raise ValueError.
Proof. split_and!; reflexivity. Qed.

Example bin_zfill_examples :
  Py.bin 5 = "0b101" /\
  Py.bin 0 = "0b0" /\
  Py.bin (-5) = "-0b101" /\
  Py.zfill 8 "101" = "00000101" /\
  Py.zfill 8 "-101" = "-0000101" /\
  Py.zfill 8 "b101" = "0000b101" /\
  Py.zfill 2 "101" = "101" /\
  Py.zfill (-2) "101" = "101".
Proof. split_and!; reflexivity. Qed.

Example lstrip_slice_examples :
  Py.lstrip "0x" "0x00ff" = "ff" /\
  Py.lstrip "0x" "x0x1" = "1" /\
  Py.lstrip "0x" "0X1F" = "X1F" /\
  Py.slice_to 3 "abcdefgh" = "abc" /\
  Py.slice_to (-3) "abcdefgh" = "abcde" /\
  Py.slice_to (-3) "ab" = "".
Proof. split_and!; reflexivity. Qed.

Example getitem_examples :
  Py.getitem [10; 20; 30] 2 = Ok 30 /\
  Py.getitem [10; 20; 30] (-1) = Ok 30 /\
  Py.getitem [10; 20; 30] (-3) = Ok 10 /\
  Py.getitem [10; 20; 30] 3 = Raise IndexError /\
  Py.getitem [10; 20; 30] (-4) = Raise IndexError.
Proof. split_and!; reflexivity. Qed.

Example codec_examples :
  binary_to_decimal "11111111" = Ok (-1) /\
  binary_to_decimal "0111" = Ok 7 /\
  binary_to_decimal "" = Raise IndexError /\
  binary_to_decimal "1x" = Raise ValueError /\
  decimal_to_binary (-2) 8 = Ok "11111110" /\
  decimal_to_binary 300 8 = Ok "100101100" /\
  decimal_to_binary (-600) 8 = Ok "b101011000" /\
  hex_to_binary "0x2a" 8 = Ok "00101010" /\
  hex_to_binary " 0x1f" 8 = Ok "00011111" /\
  hex_to_binary "0X1F" 8 = Raise ValueError.
Proof. split_and!; reflexivity. Qed.

(** ** Characters *)

Lemma is_bit_cases (c : ascii) :
  is_bit c = true -> c = "0"%char \/ c = "1"%char.
Proof.
  unfold is_bit. intros H. apply orb_true_iff in H.
  destruct H as [H | H]; apply Ascii.eqb_eq in H; auto.
Qed.

Lemma is_bit_digit (c : ascii) : is_bit c = true -> Py.is_digit 2 c = true.
Proof. intros H. destruct (is_bit_cases c H); subst; reflexivity. Qed.

Lemma digit_not_space (base : Z) (c : ascii) :
  Py.is_digit base c = true -> Py.is_space c = false.
Proof.
  unfold Py.is_digit.
  destruct c as [[] [] [] [] [] [] [] []]; vm_compute; congruence.
Qed.

Lemma digit_not_sign (base : Z) (c : ascii) :
  Py.is_digit base c = true ->
  c <> "+"%char /\ c <> "-"%char /\ c <> "_"%char.
Proof.
  unfold Py.is_digit.
  destruct c as [[] [] [] [] [] [] [] []]; vm_compute; intros H;
    repeat split; congruence.
Qed.

Lemma digit_not_prefix_letter (base : Z) (c : ascii) :
  Py.is_digit base c = true -> Py.prefix_letter base c = false.
Proof.
  unfold Py.is_digit, Py.prefix_letter. intros H.
  destruct (base =? 16) eqn:E16; [apply Z.eqb_eq in E16; subst base|].
  { revert H. destruct c as [[] [] [] [] [] [] [] []]; vm_compute; congruence. }
  destruct (base =? 8) eqn:E8; [apply Z.eqb_eq in E8; subst base|].
  { revert H. destruct c as [[] [] [] [] [] [] [] []]; vm_compute; congruence. }
  destruct (base =? 2) eqn:E2; [apply Z.eqb_eq in E2; subst base|]; [|done].
  revert H. destruct c as [[] [] [] [] [] [] [] []]; vm_compute; congruence.
Qed.

(** ** Strings *)

Lemma length_append (s t : string) :
  String.length (s +:+ t) = (String.length s + String.length t)%nat.
Proof. induction s as [|c s IH]; simpl; [done | by rewrite IH]. Qed.

Lemma all_chars_append (p : ascii -> bool) (s t : string) :
  all_chars p (s +:+ t) = all_chars p s && all_chars p t.
Proof.
  induction s as [|c s IH]; simpl; [done|].
  rewrite IH. by rewrite andb_assoc.
Qed.

Lemma digits_value_append (base acc : Z) (s t : string) :
  digits_value base acc (s +:+ t) = digits_value base (digits_value base acc s) t.
Proof. revert acc. induction s as [|c s IH]; intros acc; simpl; [done | apply IH]. Qed.

Lemma length_zeros (n : nat) : String.length (Py.zeros n) = n.
Proof. induction n as [|n IH]; simpl; [done | by rewrite IH]. Qed.

Lemma bits_zeros (n : nat) : bits (Py.zeros n) = true.
Proof. induction n as [|n IH]; [done | exact IH]. Qed.

Lemma digits_value_zeros (base : Z) (n : nat) :
  digits_value base 0 (Py.zeros n) = 0.
Proof. induction n as [|n IH]; [done | exact IH]. Qed.

Lemma take_all (n : nat) (s : string) :
  (String.length s <= n)%nat -> Py.take n s = s.
Proof.
  revert s. induction n as [|n IH]; intros [|c s] H; simpl in *; try done.
  - lia.
  - f_equal. apply IH. lia.
Qed.

Lemma length_take (n : nat) (s : string) :
  (n <= String.length s)%nat -> String.length (Py.take n s) = n.
Proof.
  revert s. induction n as [|n IH]; intros [|c s] H; simpl in *; try done.
  - lia.
  - f_equal. apply IH. lia.
Qed.

Lemma all_chars_take (p : ascii -> bool) (n : nat) (s : string) :
  all_chars p s = true -> all_chars p (Py.take n s) = true.
Proof.
  revert s. induction n as [|n IH]; intros [|c s] H; simpl in *; try done.
  apply andb_true_iff in H as [Hc Hs]. rewrite Hc. by apply IH.
Qed.

(** ** Reading digits *)

(** The value of a string continues the value read so far. *)
Lemma digits_value_acc (base acc : Z) (s : string) :
  digits_value base acc s =
  acc * base ^ Py.len s + digits_value base 0 s.
Proof.
  unfold Py.len. revert acc. induction s as [|c s IH]; intros acc.
  - simpl. lia.
  - cbn [digits_value String.length]. rewrite IH.
    rewrite (IH (0 * base + _)).
    rewrite Nat2Z.inj_succ, Z.pow_succ_r by lia. ring.
Qed.

Lemma digits_value_range (base : Z) (s : string) :
  all_chars (Py.is_digit base) s = true ->
  0 <= digits_value base 0 s < base ^ Py.len s.
Proof.
  unfold Py.len. induction s as [|c s IH]; intros H.
  - simpl. lia.
  - cbn [all_chars] in H. apply andb_true_iff in H as [Hc Hs].
    specialize (IH Hs).
    cbn [digits_value String.length]. rewrite digits_value_acc.
    rewrite Nat2Z.inj_succ, Z.pow_succ_r by lia. unfold Py.len.
    unfold Py.is_digit in Hc.
    assert (0 <= default 0 (Py.digit_value c) < base) as Hd.
    { destruct (Py.digit_value c) as [d|] eqn:E; [|done].
      apply Z.ltb_lt in Hc. simpl. split; [|done].
      revert E. unfold Py.digit_value.
      repeat case_match; intros [= <-]; lia. }
    nia.
Qed.

Lemma bits_digits (s : string) :
  bits s = true -> all_chars (Py.is_digit 2) s = true.
Proof.
  induction s as [|c s IH]; [done|]. unfold bits. cbn [all_chars].
  intros H. apply andb_true_iff in H as [Hc Hs].
  rewrite (is_bit_digit c Hc). by apply IH.
Qed.

Lemma unsigned_range (w : string) :
  bits w = true -> 0 <= unsigned w < 2 ^ Py.len w.
Proof. intros H. apply digits_value_range. by apply bits_digits. Qed.

Lemma scan_digits_all (base : Z) (prev : ascii) (acc : Z) (s : string) :
  prev <> "_"%char ->
  all_chars (Py.is_digit base) s = true ->
  Py.scan_digits base prev acc s = Some (digits_value base acc s, "").
Proof.
  revert prev acc. induction s as [|c s IH]; intros prev acc Hp H.
  - simpl. by apply Ascii.eqb_neq in Hp as ->.
  - cbn [all_chars] in H. apply andb_true_iff in H as [Hc Hs].
    destruct (digit_not_sign base c Hc) as (_ & _ & Hu).
    cbn [Py.scan_digits digits_value].
    apply Ascii.eqb_neq in Hu as Hu'. rewrite Hu'.
    unfold Py.is_digit in Hc.
    destruct (Py.digit_value c) as [d|]; [|done].
    rewrite Hc. simpl. by apply IH.
Qed.

(** [int] on a plain, non-empty string of digits of the base. *)
Lemma int_digits (base : Z) (s : string) :
  s <> "" ->
  all_chars (Py.is_digit base) s = true ->
  Py.int s base = Ok (digits_value base 0 s).
Proof.
  intros Hne H. destruct s as [|c s]; [done|].
  pose proof H as H0. cbn [all_chars] in H0.
  apply andb_true_iff in H0 as [Hc Hs].
  destruct (digit_not_sign base c Hc) as (Hplus & Hminus & _).
  unfold Py.int. cbn [Py.skip_spaces].
  rewrite (digit_not_space base c Hc).
  assert (match String c s with
          | String "+" r => (1, r)
          | String "-" r => (-1, r)
          | _ => (1, String c s)
          end = (1, String c s)) as ->.
  { destruct c as [[] [] [] [] [] [] [] []]; try reflexivity; congruence. }
  assert (Py.skip_prefix base (String c s) = String c s) as ->.
  { destruct s as [|c' s'].
    - destruct c as [[] [] [] [] [] [] [] []]; reflexivity.
    - cbn [all_chars] in Hs. apply andb_true_iff in Hs as [Hc' _].
      pose proof (digit_not_prefix_letter base c' Hc') as Hp.
      unfold Py.skip_prefix.
      destruct c as [[] [] [] [] [] [] [] []]; try reflexivity.
      by rewrite Hp. }
  rewrite Hc, (scan_digits_all base "000" 0 (String c s)) by done.
  cbn [Py.skip_spaces]. f_equal. lia.
Qed.

Lemma int_bits (w : string) :
  w <> "" -> bits w = true -> Py.int w 2 = Ok (unsigned w).
Proof. intros Hne H. apply int_digits; [done | by apply bits_digits]. Qed.

(** ** Writing digits *)

Lemma pos_digits_bits (p : positive) : bits (Py.pos_digits p) = true.
Proof.
  unfold bits. induction p as [p IH|p IH|]; simpl; try done;
    rewrite all_chars_append, IH; done.
Qed.

Lemma pos_digits_value (p : positive) : unsigned (Py.pos_digits p) = Z.pos p.
Proof.
  unfold unsigned. induction p as [p IH|p IH|]; simpl Py.pos_digits; try done;
    rewrite digits_value_append, IH; simpl; lia.
Qed.

Lemma pos_digits_length (p : positive) :
  Py.len (Py.pos_digits p) = Z.log2 (Z.pos p) + 1.
Proof.
  unfold Py.len.
  assert (Z.of_nat (String.length (Py.pos_digits p)) = Z.pos (Pos.size p)) as ->.
  { induction p as [p IH|p IH|]; simpl Py.pos_digits; try done;
      rewrite length_append, Nat2Z.inj_add, IH; simpl; lia. }
  destruct p; simpl; lia.
Qed.

(** [bin(n)[2:]] for a natural number: its binary digits. *)
Lemma bin_digits (n : Z) :
  0 <= n ->
  bits (Py.drop 2 (Py.bin n)) = true /\
  unsigned (Py.drop 2 (Py.bin n)) = n /\
  Py.len (Py.drop 2 (Py.bin n)) = Z.log2 n + 1.
Proof.
  intros Hn. destruct n as [|p|p]; [done| |lia].
  change (Py.drop 2 (Py.bin (Z.pos p))) with (Py.pos_digits p).
  auto using pos_digits_bits, pos_digits_value, pos_digits_length.
Qed.

Lemma append_empty_r (s : string) : s +:+ "" = s.
Proof.
  induction s as [|c s IH]; [done|].
  change (String c s +:+ "") with (String c (s +:+ "")). by rewrite IH.
Qed.

(** On a bit string, [zfill] puts the missing zeros in front. *)
Lemma zfill_bits (width : Z) (s : string) :
  bits s = true ->
  Py.zfill width s = Py.zeros (Z.to_nat (width - Py.len s)) +:+ s.
Proof.
  intros H. destruct s as [|c s]; unfold Py.zfill.
  - symmetry. apply append_empty_r.
  - unfold bits in H. cbn [all_chars] in H. apply andb_true_iff in H as [Hc _].
    destruct (is_bit_cases c Hc); subst; reflexivity.
Qed.

Lemma zfill_word (width : nat) (s : string) :
  bits s = true ->
  (String.length s <= width)%nat ->
  word width (Py.zfill (Z.of_nat width) s) /\
  unsigned (Py.zfill (Z.of_nat width) s) = unsigned s.
Proof.
  intros H Hlen. rewrite zfill_bits by done.
  set (n := Z.to_nat (Z.of_nat width - Py.len s)).
  assert (n = (width - String.length s)%nat) as Hn by (unfold n, Py.len; lia).
  pose proof (bits_zeros n) as Hz.
  unfold word, unsigned, bits in *.
  rewrite length_append, length_zeros, all_chars_append, Hz, H.
  rewrite digits_value_append, digits_value_zeros.
  split_and!; [lia | done | done].
Qed.

Lemma log2_lt_width (n : Z) (width : nat) :
  (1 <= width)%nat -> 0 <= n < 2 ^ Z.of_nat width ->
  Z.log2 n + 1 <= Z.of_nat width.
Proof.
  intros Hw [Hn Hlt]. destruct (Z.eq_dec n 0) as [->|Hne]; [simpl; lia|].
  assert (Z.log2 n < Z.of_nat width); [|lia].
  apply Z.log2_lt_pow2; lia.
Qed.

(** [bin(n)[2:].zfill(width)] is the [width]-bit word of value [n], for
    [n] within the width. *)
Lemma encode_word (width : nat) (n : Z) :
  (1 <= width)%nat -> 0 <= n < 2 ^ Z.of_nat width ->
  word width (Py.zfill (Z.of_nat width) (Py.drop 2 (Py.bin n))) /\
  unsigned (Py.zfill (Z.of_nat width) (Py.drop 2 (Py.bin n))) = n.
Proof.
  intros Hw Hn. destruct (bin_digits n) as (Hb & Hv & Hl); [lia|].
  pose proof (log2_lt_width n width Hw Hn) as Hlog.
  destruct (zfill_word width (Py.drop 2 (Py.bin n))) as [Hword Hval].
  - done.
  - unfold Py.len in Hl. lia.
  - split; [done | congruence].
Qed.

(** ** Words are determined by their value *)

Lemma unsigned_cons (c : ascii) (w : string) :
  unsigned (String c w) =
  default 0 (Py.digit_value c) * 2 ^ Py.len w + unsigned w.
Proof.
  unfold unsigned. cbn [digits_value]. rewrite digits_value_acc. f_equal.
Qed.

Lemma unsigned_inj (s t : string) :
  bits s = true -> bits t = true ->
  String.length s = String.length t ->
  unsigned s = unsigned t -> s = t.
Proof.
  revert t. induction s as [|c s IH]; intros [|d t] Hs Ht Hlen Hval;
    simpl in Hlen; try done.
  unfold bits in Hs, Ht. cbn [all_chars] in Hs, Ht.
  apply andb_true_iff in Hs as [Hc Hs]. apply andb_true_iff in Ht as [Hd Ht].
  rewrite !unsigned_cons in Hval.
  pose proof (unsigned_range s Hs) as Rs. pose proof (unsigned_range t Ht) as Rt.
  assert (Py.len s = Py.len t) as Hl by (unfold Py.len; lia).
  rewrite Hl in *.
  destruct (is_bit_cases c Hc), (is_bit_cases d Hd); subst c d;
    simpl in Hval; try (exfalso; lia);
    f_equal; apply IH; try done; lia.
Qed.

(** ** The two's-complement reading *)

Lemma signed_unsigned (n : nat) (w : string) :
  word (S n) w ->
  signed w = if unsigned w <? 2 ^ Z.of_nat n then unsigned w
             else unsigned w - 2 ^ Z.of_nat (S n).
Proof.
  intros [Hlen Hb]. destruct w as [|c w]; [done|].
  injection Hlen as Hlen.
  unfold bits in Hb. cbn [all_chars] in Hb. apply andb_true_iff in Hb as [Hc Hb].
  pose proof (unsigned_range w Hb) as R.
  assert (Py.len w = Z.of_nat n) as Hl by (unfold Py.len; lia).
  assert (Py.len (String c w) = Z.of_nat (S n)) as Hl'
    by (unfold Py.len; simpl; lia).
  rewrite Hl in R.
  destruct (is_bit_cases c Hc); subst c.
  - change (signed (String "0" w)) with (unsigned (String "0" w)).
    rewrite unsigned_cons, Hl. change (default 0 (Py.digit_value "0")) with 0.
    destruct (Z.ltb_spec (0 * 2 ^ Z.of_nat n + unsigned w) (2 ^ Z.of_nat n));
      [done | lia].
  - change (signed (String "1" w))
      with (unsigned (String "1" w) - 2 ^ Py.len (String "1" w)).
    rewrite Hl', unsigned_cons, Hl. change (default 0 (Py.digit_value "1")) with 1.
    destruct (Z.ltb_spec (1 * 2 ^ Z.of_nat n + unsigned w) (2 ^ Z.of_nat n));
      [lia | done].
Qed.

Lemma signed_range (n : nat) (w : string) :
  word (S n) w -> - 2 ^ Z.of_nat n <= signed w < 2 ^ Z.of_nat n.
Proof.
  intros Hw. rewrite (signed_unsigned n w Hw). destruct Hw as [Hlen Hb].
  pose proof (unsigned_range w Hb) as R. unfold Py.len in R. rewrite Hlen in R.
  rewrite Nat2Z.inj_succ, Z.pow_succ_r in * by lia.
  destruct (unsigned w <? 2 ^ Z.of_nat n) eqn:E;
    [apply Z.ltb_lt in E | apply Z.ltb_ge in E]; lia.
Qed.

Lemma signed_mod (n : nat) (w : string) :
  word (S n) w -> signed w mod 2 ^ Z.of_nat (S n) = unsigned w.
Proof.
  intros Hw. rewrite (signed_unsigned n w Hw). destruct Hw as [Hlen Hb].
  pose proof (unsigned_range w Hb) as R. unfold Py.len in R. rewrite Hlen in R.
  destruct (unsigned w <? 2 ^ Z.of_nat n).
  - apply Z.mod_small. lia.
  - replace (unsigned w - 2 ^ Z.of_nat (S n))
      with (unsigned w + (-1) * 2 ^ Z.of_nat (S n)) by ring.
    rewrite Z.mod_add by lia. apply Z.mod_small. lia.
Qed.

(** [binary_to_decimal] returns the two's-complement reading of any
    non-empty bit string. *)
Lemma binary_to_decimal_signed (w : string) :
  w <> "" -> bits w = true -> binary_to_decimal w = Ok (signed w).
Proof.
  intros Hne Hb. unfold binary_to_decimal, signed.
  rewrite (int_bits w Hne Hb). destruct w as [|c w]; [done|].
  unfold bits in Hb. cbn [all_chars] in Hb. apply andb_true_iff in Hb as [Hc _].
  destruct (is_bit_cases c Hc); subst c; reflexivity.
Qed.

Lemma word_nonempty (n : nat) (w : string) : word (S n) w -> w <> "".
Proof. intros [Hlen _] ->. done. Qed.

(** [decimal_to_binary] wraps a number of at most one bit more than the
    width into the word of that width. *)
Lemma decimal_to_binary_word (width : nat) (v : Z) :
  (1 <= width)%nat ->
  - 2 ^ Z.of_nat width <= v < 2 ^ Z.of_nat width ->
  exists r, decimal_to_binary v (Z.of_nat width) = Ok r /\
            word width r /\
            unsigned r = v mod 2 ^ Z.of_nat width.
Proof.
  intros Hw Hv. unfold decimal_to_binary.
  destruct (Z.ltb_spec v 0) as [Hneg | Hpos].
  - destruct (Z.ltb_spec (Z.of_nat width) 0) as [? | _]; [lia|].
    destruct (encode_word width (v + 2 ^ Z.of_nat width)) as [Hword Hval];
      [done | lia |].
    eexists. split; [reflexivity|]. split; [done|].
    rewrite Hval. symmetry.
    replace v with (v + 2 ^ Z.of_nat width + (-1) * 2 ^ Z.of_nat width) at 1 by ring.
    rewrite Z.mod_add by lia. apply Z.mod_small. lia.
  - destruct (encode_word width v) as [Hword Hval]; [done | lia |].
    eexists. split; [reflexivity|]. split; [done|].
    rewrite Hval. symmetry. apply Z.mod_small. lia.
Qed.

(** ** The store *)

Lemma bind_ok {A B : Type} (m : M A) (k : A -> M B) (h h' : heap) (x : A) :
  m h = Ok (x, h') -> bind m k h = k x h'.
Proof. unfold bind. by intros ->. Qed.

Lemma bind_raise {A B : Type} (m : M A) (k : A -> M B) (h : heap) (e : exn) :
  m h = Raise e -> bind m k h = Raise e.
Proof. unfold bind. by intros ->. Qed.

Lemma lift_ok {A : Type} (r : res A) (x : A) (h : heap) :
  r = Ok x -> lift r h = Ok (x, h).
Proof. by intros ->. Qed.

Lemma Register_read_ok (h : heap) (self : loc) (w : string) :
  h !! self = Some (RegisterObj w) -> Register.read self h = Ok (w, h).
Proof. unfold Register.read, Register.get_state. by intros ->. Qed.

Lemma Register_write_ok (h : heap) (self : loc) (w data : string) :
  h !! self = Some (RegisterObj w) ->
  Register.write self data h = Ok (tt, <[self := RegisterObj data]> h).
Proof. unfold Register.write, Register.set_state. by intros ->. Qed.

Lemma ALU_get_a_ok (h : heap) (self a b : loc) (s : string) :
  h !! self = Some (ALUObj a b s) -> ALU.get_a self h = Ok (a, h).
Proof. unfold ALU.get_a. by intros ->. Qed.

Lemma ALU_get_b_ok (h : heap) (self a b : loc) (s : string) :
  h !! self = Some (ALUObj a b s) -> ALU.get_b self h = Ok (b, h).
Proof. unfold ALU.get_b. by intros ->. Qed.

Lemma ALU_set_state_ok (h : heap) (self a b : loc) (s r : string) :
  h !! self = Some (ALUObj a b s) ->
  ALU.set_state self r h = Ok (tt, <[self := ALUObj a b r]> h).
Proof. unfold ALU.set_state. by intros ->. Qed.

Lemma Flag_get_reg_ok (h : heap) (self reg : loc) (s : Z) :
  h !! self = Some (FlagObj s reg) -> Flag.get_reg self h = Ok (reg, h).
Proof. unfold Flag.get_reg. by intros ->. Qed.

Lemma Flag_get_state_ok (h : heap) (self reg : loc) (s : Z) :
  h !! self = Some (FlagObj s reg) -> Flag.get_state self h = Ok (s, h).
Proof. unfold Flag.get_state. by intros ->. Qed.

Lemma Flag_set_state_ok (h : heap) (self reg : loc) (s v : Z) :
  h !! self = Some (FlagObj s reg) ->
  Flag.set_state self v h = Ok (tt, <[self := FlagObj v reg]> h).
Proof. unfold Flag.set_state. by intros ->. Qed.

(** The operands of an ALU decode, in the order the code reads them. *)
Lemma read_operand (h : heap) (l : loc) (w : string) {B : Type}
    (k : Z -> M B) :
  h !! l = Some (RegisterObj w) -> word 8 w ->
  (w' <- Register.read l ;; v <- lift (binary_to_decimal w') ;; k v) h =
  k (signed w) h.
Proof.
  intros Hl Hw. rewrite (bind_ok _ _ h h w) by by apply Register_read_ok.
  rewrite (bind_ok _ _ h h (signed w)); [done|].
  apply lift_ok, binary_to_decimal_signed; [by eapply word_nonempty | apply Hw].
Qed.

(** ** The ALU *)

(** What [update] does for either mode on 8-bit operands. *)
Lemma ALU_update_word (h : heap) (self a b : loc) (old wa wb mode : string)
    (v : Z) :
  h !! self = Some (ALUObj a b old) ->
  h !! a = Some (RegisterObj wa) ->
  h !! b = Some (RegisterObj wb) ->
  word 8 wa -> word 8 wb ->
  (if String.eqb mode "add" then Some (signed wa + signed wb)
   else if String.eqb mode "sub" then Some (signed wa - signed wb)
   else None) = Some v ->
  - 2 ^ 8 <= v < 2 ^ 8 ->
  exists r, ALU.update self mode h = Ok (tt, <[self := ALUObj a b r]> h) /\
            word 8 r /\ unsigned r = v mod 2 ^ 8.
Proof.
  intros Hself Ha Hb Hwa Hwb Hmode Hv.
  destruct (decimal_to_binary_word 8 v) as (r & Hr & Hword & Hval); [lia | done |].
  exists r. split; [|done].
  unfold ALU.update.
  rewrite (bind_ok _ _ h h a) by by eapply ALU_get_a_ok.
  rewrite (read_operand h a wa) by done.
  rewrite (bind_ok _ _ h h b) by by eapply ALU_get_b_ok.
  rewrite (read_operand h b wb) by done.
  rewrite Hmode.
  rewrite (bind_ok _ _ h h r) by by apply lift_ok.
  rewrite take_all by (destruct Hword as [-> _]; lia).
  by eapply ALU_set_state_ok.
Qed.

Lemma signed_wrap8 (w : string) (v : Z) :
  word 8 w -> unsigned w = v mod 2 ^ 8 -> signed w = wrap8 v.
Proof.
  intros Hw Hu. rewrite (signed_unsigned 7 w Hw), Hu. unfold wrap8.
  change (2 ^ Z.of_nat 7) with 128. change (2 ^ Z.of_nat 8) with 256.
  change (2 ^ 7) with 128. change (2 ^ 8) with 256.
  destruct (Z.ltb_spec (v mod 256) 128); Z.div_mod_to_equations; lia.
Qed.

Lemma signed_inj (n : nat) (s t : string) :
  word (S n) s -> word (S n) t -> signed s = signed t -> s = t.
Proof.
  intros Hs Ht Heq.
  apply unsigned_inj; [apply Hs | apply Ht | |].
  - destruct Hs as [-> _], Ht as [-> _]. done.
  - rewrite <- (signed_mod n s Hs), <- (signed_mod n t Ht). by rewrite Heq.
Qed.

(** C1. On 8-bit operand words, [ALU.read(mode)] recomputes the result
    from the operands as they are now, whatever the ALU held before,
    stores it and returns it: the 8-bit word whose two's-complement
    reading is the sum (mode ['add']) or the difference (mode ['sub']) of
    the operands' readings, wrapped modulo [2 ^ 8]. With operands reading
    5 and 3, ['add'] returns ['00001000']; with operands reading 3 and 5,
    ['sub'] returns ['11111110']. *)
Theorem ALU_read_fresh_wrapped (h : heap) (self a b : loc)
    (old wa wb mode : string) :
  h !! self = Some (ALUObj a b old) ->
  h !! a = Some (RegisterObj wa) ->
  h !! b = Some (RegisterObj wb) ->
  word 8 wa -> word 8 wb ->
  mode = "add" \/ mode = "sub" ->
  exists r,
    ALU.read self mode h = Ok (r, <[self := ALUObj a b r]> h) /\
    word 8 r /\
    (mode = "add" -> signed r = wrap8 (signed wa + signed wb)) /\
    (mode = "sub" -> signed r = wrap8 (signed wa - signed wb)) /\
    (mode = "add" -> signed wa = 5 -> signed wb = 3 -> r = "00001000") /\
    (mode = "sub" -> signed wa = 3 -> signed wb = 5 -> r = "11111110").
Proof.
  intros Hself Ha Hb Hwa Hwb Hmode.
  pose proof (signed_range 7 wa Hwa) as Ra.
  pose proof (signed_range 7 wb Hwb) as Rb.
  change (2 ^ Z.of_nat 7) with 128 in Ra, Rb.
  set (v := if String.eqb mode "add" then signed wa + signed wb
            else signed wa - signed wb).
  destruct (ALU_update_word h self a b old wa wb mode v)
    as (r & Hupd & Hword & Hval); try done.
  { subst v. destruct Hmode as [-> | ->]; reflexivity. }
  { subst v. change (2 ^ 8) with 256.
    destruct Hmode as [-> | ->]; simpl; lia. }
  pose proof (signed_wrap8 r v Hword Hval) as Hs.
  exists r. split.
  { unfold ALU.read. rewrite (bind_ok _ _ _ _ _ Hupd).
    unfold ALU.get_state. by rewrite lookup_insert_eq. }
  split; [done|].
  assert (word 8 "00001000" /\ word 8 "11111110") as [W1 W2] by done.
  split_and!; intros Hm; subst mode v; simpl in Hs; try done.
  - intros E1 E2. rewrite E1, E2 in Hs. by apply (signed_inj 7).
  - intros E1 E2. rewrite E1, E2 in Hs. by apply (signed_inj 7).
Qed.

(** C2. Decoding an 8-character bit string as a two's-complement number
    and encoding the number again at width 8 gives the string back. *)
Theorem decimal_to_binary_binary_to_decimal (w : string) :
  word 8 w ->
  (let* d := binary_to_decimal w in decimal_to_binary d 8) = Ok w.
Proof.
  intros Hw.
  rewrite (binary_to_decimal_signed w); [|by eapply word_nonempty | apply Hw].
  cbn [res_bind].
  pose proof (signed_range 7 w Hw) as R.
  destruct (decimal_to_binary_word 8 (signed w)) as (r & Hr & Hword & Hval).
  { lia. }
  { change (2 ^ Z.of_nat 7) with 128 in R. change (2 ^ Z.of_nat 8) with 256. lia. }
  change (Z.of_nat 8) with 8 in Hr. rewrite Hr. f_equal.
  apply unsigned_inj; [apply Hword | apply Hw | |].
  - destruct Hword as [-> _], Hw as [-> _]. done.
  - rewrite Hval. apply (signed_mod 7 w Hw).
Qed.

(** ** The RAM *)

Lemma getitem_in_range {A : Type} (l : list A) (i : Z) :
  0 <= i < Z.of_nat (length l) ->
  exists x, Py.getitem l i = Ok x /\ l !! Z.to_nat i = Some x.
Proof.
  intros Hi. unfold Py.getitem.
  destruct (Z.ltb_spec i 0); [lia|].
  destruct (Z.leb_spec 0 i); [|lia].
  destruct (Z.ltb_spec i (Z.of_nat (length l))); [|lia]. simpl.
  destruct (l !! Z.to_nat i) as [x|] eqn:E; [by exists x|].
  apply lookup_ge_None in E. lia.
Qed.

Lemma getitem_negative {A : Type} (l : list A) (i : Z) :
  - Z.of_nat (length l) <= i < 0 ->
  Py.getitem l i = Py.getitem l (i + Z.of_nat (length l)).
Proof.
  intros Hi. unfold Py.getitem.
  destruct (Z.ltb_spec i 0); [|lia].
  destruct (Z.ltb_spec (i + Z.of_nat (length l)) 0); [lia|]. done.
Qed.

Lemma getitem_out_of_range {A : Type} (l : list A) (i : Z) :
  i < - Z.of_nat (length l) \/ Z.of_nat (length l) <= i ->
  Py.getitem l i = Raise IndexError.
Proof.
  intros Hi. unfold Py.getitem.
  destruct (Z.ltb_spec i 0).
  - destruct (Z.leb_spec 0 (i + Z.of_nat (length l))); [lia | done].
  - destruct (Z.leb_spec 0 i); [|lia].
    destruct (Z.ltb_spec i (Z.of_nat (length l))); [lia | done].
Qed.

Lemma RAM_get_state_ok (h : heap) (self : loc) (cells : list loc) :
  h !! self = Some (RAMObj cells) -> RAM.get_state self h = Ok (cells, h).
Proof. unfold RAM.get_state. by intros ->. Qed.

Lemma RAM_read_cell (h : heap) (self c : loc) (cells : list loc)
    (address : Z) (w : string) :
  h !! self = Some (RAMObj cells) ->
  Py.getitem cells address = Ok c ->
  h !! c = Some (RegisterObj w) ->
  RAM.read self address h = Ok (w, h).
Proof.
  intros Hself Hc Hw. unfold RAM.read.
  rewrite (bind_ok _ _ h h cells) by by apply RAM_get_state_ok.
  rewrite (bind_ok _ _ h h c) by by apply lift_ok.
  by apply Register_read_ok.
Qed.

Lemma RAM_write_cell (h : heap) (self c : loc) (cells : list loc)
    (address : Z) (w s : string) :
  h !! self = Some (RAMObj cells) ->
  Py.getitem cells address = Ok c ->
  h !! c = Some (RegisterObj w) ->
  String.length s = 8%nat ->
  RAM.write self (VStr s) address h = Ok (tt, <[c := RegisterObj s]> h).
Proof.
  intros Hself Hc Hw Hlen. unfold RAM.write, Py.len. rewrite Hlen. simpl.
  rewrite (bind_ok _ _ h h cells) by by apply RAM_get_state_ok.
  rewrite (bind_ok _ _ h h c) by by apply lift_ok.
  by eapply Register_write_ok.
Qed.

Lemma RAM_raises_IndexError (h : heap) (self : loc) (cells : list loc)
    (address : Z) (s : string) :
  h !! self = Some (RAMObj cells) ->
  Py.getitem cells address = Raise IndexError ->
  String.length s = 8%nat ->
  RAM.read self address h = Raise IndexError /\
  RAM.write self (VStr s) address h = Raise IndexError.
Proof.
  intros Hself Hc Hlen. unfold RAM.read, RAM.write, Py.len. rewrite Hlen. simpl.
  rewrite !(bind_ok _ _ h h cells) by by apply RAM_get_state_ok.
  split; apply bind_raise; unfold lift; by rewrite Hc.
Qed.

(** The cell an in-range address designates. *)
Lemma ram_ok_cell (h : heap) (self : loc) (address : Z) :
  ram_ok h self -> 0 <= address < 16 ->
  exists cells c w,
    h !! self = Some (RAMObj cells) /\ NoDup cells /\
    Py.getitem cells address = Ok c /\
    cells !! Z.to_nat address = Some c /\
    h !! c = Some (RegisterObj w).
Proof.
  intros (cells & Hself & Hlen & Hnd & Hregs) Ha.
  destruct (getitem_in_range cells address) as (c & Hget & Hc); [lia|].
  destruct (Hregs c) as [w Hw]; [by eapply list_elem_of_lookup_2|].
  by exists cells, c, w.
Qed.

(** [write] keeps the RAM as its constructor left it. *)
Lemma RAM_write_keeps_ok (h h' : heap) (self : loc) (data : value)
    (address : Z) :
  ram_ok h self ->
  RAM.write self data address h = Ok (tt, h') ->
  ram_ok h' self.
Proof.
  intros (cells & Hself & Hlen & Hnd & Hregs) Hw.
  unfold RAM.write in Hw. destruct data as [s| |]; try done.
  destruct (Py.len s =? 8); [|done].
  rewrite (bind_ok _ _ h h cells) in Hw by by apply RAM_get_state_ok.
  unfold bind, lift in Hw.
  destruct (Py.getitem cells address) as [c| |] eqn:Hc; try done.
  unfold Register.write, Register.set_state in Hw.
  destruct (h !! c) as [[w| | |]|] eqn:Hhc; try done.
  injection Hw as <-.
  assert (c <> self) as Hne by congruence.
  exists cells. rewrite lookup_insert_ne by done. split_and!; try done.
  intros c' Hin. destruct (decide (c = c')) as [<-|Hcc].
  - rewrite lookup_insert_eq. eauto.
  - rewrite lookup_insert_ne by done. auto.
Qed.

Lemma alloc_fresh (o : obj) (h : heap) :
  exists l, alloc o h = Ok (l, <[l := o]> h) /\ h !! l = None.
Proof.
  exists (fresh (dom h)). split; [done|].
  apply not_elem_of_dom, is_fresh.
Qed.

(** The comprehension of the constructor creates registers that are new
    and pairwise distinct objects, and touches nothing else. *)
Lemma byte_registers_new (n : nat) (h : heap) :
  exists cells h',
    RAM.byte_registers n h = Ok (cells, h') /\
    length cells = n /\
    NoDup cells /\
    (forall c, c ∈ cells ->
       h !! c = None /\ h' !! c = Some (RegisterObj "00000000")) /\
    (forall l, l ∉ cells -> h' !! l = h !! l).
Proof.
  revert h. induction n as [|n IH]; intros h.
  - exists [], h. split_and!; try done.
    + constructor.
    + intros c Hc. by apply elem_of_nil in Hc.
  - destruct (alloc_fresh (RegisterObj "00000000") h) as (r & Hr & Hfresh).
    destruct (IH (<[r := RegisterObj "00000000"]> h))
      as (rs & h' & Hrs & Hlen & Hnd & Hnew & Hold).
    assert (r ∉ rs) as Hnotin.
    { intros Hin. destruct (Hnew r Hin) as [Hnone _].
      by rewrite lookup_insert_eq in Hnone. }
    exists (r :: rs), h'. split_and!.
    + cbn [RAM.byte_registers]. unfold ByteRegister.init.
      rewrite (bind_ok _ _ _ _ _ Hr), (bind_ok _ _ _ _ _ Hrs). done.
    + simpl. by rewrite Hlen.
    + by constructor.
    + intros c Hc. apply elem_of_cons in Hc as [-> | Hc].
      * split; [done|]. rewrite (Hold r Hnotin). apply lookup_insert_eq.
      * destruct (Hnew c Hc) as [Hnone Hsome]. split; [|done].
        destruct (decide (r = c)) as [-> | Hne]; [done|].
        by rewrite lookup_insert_ne in Hnone.
    + intros l Hl. apply not_elem_of_cons in Hl as [Hne Hl].
      rewrite (Hold l Hl). by apply lookup_insert_ne.
Qed.

(** The constructor of the RAM establishes [ram_ok], in any store. *)
Lemma RAM_init_ok (h : heap) :
  exists self h', RAM.init h = Ok (self, h') /\ ram_ok h' self.
Proof.
  destruct (byte_registers_new 16 h) as (cells & h1 & Hcells & Hlen & Hnd & Hnew & _).
  destruct (alloc_fresh (RAMObj cells) h1) as (self & Hself & Hfresh).
  exists self, (<[self := RAMObj cells]> h1). split.
  - unfold RAM.init. by rewrite (bind_ok _ _ _ _ _ Hcells).
  - exists cells. rewrite lookup_insert_eq. split_and!; try done.
    intros c Hc. destruct (Hnew c Hc) as [_ Hsome].
    exists "00000000". rewrite lookup_insert_ne; [done | congruence].
Qed.

(** C5, as the code has it. For an address in [0, 16), [RAM.write] fails
    with a validation error exactly when [data] is not a string of 8
    characters; the characters themselves are not looked at. On a string
    of 8 characters the write succeeds and the address then reads as that
    string. *)
Theorem RAM_write_validation (h : heap) (self : loc) (data : value)
    (address : Z) :
  ram_ok h self ->
  0 <= address < 16 ->
  ((exists msg, RAM.write self data address h = Raise (AssertionError msg)) <->
   ~ (exists s, data = VStr s /\ String.length s = 8%nat)) /\
  (forall s, data = VStr s -> String.length s = 8%nat ->
     exists h', RAM.write self data address h = Ok (tt, h') /\
                RAM.read self address h' = Ok (s, h')).
Proof.
  intros Hok Ha.
  destruct (ram_ok_cell h self address Hok Ha)
    as (cells & c & w & Hself & _ & Hget & _ & Hc).
  assert (c <> self) as Hne by congruence.
  assert (forall s, String.length s = 8%nat ->
            RAM.write self (VStr s) address h = Ok (tt, <[c := RegisterObj s]> h))
    as Hwrite by (intros s Hs; by eapply RAM_write_cell).
  split; [split|].
  - intros [msg Hraise] (s & -> & Hlen). by rewrite Hwrite in Hraise.
  - intros Hnot. destruct data as [s| |]; [|by eexists..].
    unfold RAM.write, Py.len.
    destruct (Z.eqb_spec (Z.of_nat (String.length s)) 8) as [E|E];
      [|by eexists].
    exfalso. apply Hnot. exists s. split; [done | lia].
  - intros s -> Hlen. exists (<[c := RegisterObj s]> h).
    split; [by apply Hwrite|].
    apply (RAM_read_cell _ self c cells); [|done|].
    + by rewrite lookup_insert_ne.
    + apply lookup_insert_eq.
Qed.

(** C6, as the code has it. [RAM.read] and [RAM.write] (of a string of 8
    characters) fail with an indexing error for every address below -16
    and every address from 16 on. An address in [-16, 0) counts from the
    end and is the cell [address + 16]; for every address in [-16, 16),
    so also in [0, 16), neither operation fails. *)
Theorem RAM_index_errors (h : heap) (self : loc) (address : Z) (s : string) :
  ram_ok h self ->
  String.length s = 8%nat ->
  (address < -16 \/ 16 <= address ->
     RAM.read self address h = Raise IndexError /\
     RAM.write self (VStr s) address h = Raise IndexError) /\
  (-16 <= address < 0 ->
     RAM.read self address h = RAM.read self (address + 16) h /\
     RAM.write self (VStr s) address h =
       RAM.write self (VStr s) (address + 16) h) /\
  (-16 <= address < 16 ->
     (exists w, RAM.read self address h = Ok (w, h)) /\
     (exists h', RAM.write self (VStr s) address h = Ok (tt, h'))).
Proof.
  intros Hok Hlen.
  assert (forall a, 0 <= a < 16 ->
            (exists w, RAM.read self a h = Ok (w, h)) /\
            (exists h', RAM.write self (VStr s) a h = Ok (tt, h'))) as Hin.
  { intros a Ha.
    destruct (ram_ok_cell h self a Hok Ha)
      as (cells & c & w & Hself & _ & Hget & _ & Hc).
    split; eexists; [by eapply RAM_read_cell | by eapply RAM_write_cell]. }
  destruct Hok as (cells & Hself & Hcells & _ & _).
  assert (forall a, -16 <= a < 0 ->
            RAM.read self a h = RAM.read self (a + 16) h /\
            RAM.write self (VStr s) a h = RAM.write self (VStr s) (a + 16) h)
    as Hneg.
  { intros a Ha. unfold RAM.read, RAM.write, Py.len. rewrite Hlen. simpl.
    rewrite !(bind_ok _ _ h h cells) by by apply RAM_get_state_ok.
    rewrite (getitem_negative cells a) by lia. by rewrite Hcells. }
  split_and!.
  - intros Ha. apply (RAM_raises_IndexError h self cells); [done | | done].
    apply getitem_out_of_range. lia.
  - apply Hneg.
  - intros Ha. destruct (Z.ltb_spec address 0) as [Hlt | Hge].
    + destruct (Hneg address) as [-> ->]; [lia|]. apply Hin. lia.
    + apply Hin. lia.
Qed.

(** C10. A write to address [i] leaves the word at every other address
    [j] as it was: [i] and [j] in [0, 16), [d] an 8-bit word. *)
Theorem RAM_write_frame (h : heap) (self : loc) (i j : Z) (d : string) :
  ram_ok h self ->
  0 <= i < 16 -> 0 <= j < 16 -> i <> j ->
  word 8 d ->
  exists h' w,
    RAM.write self (VStr d) i h = Ok (tt, h') /\
    RAM.read self j h = Ok (w, h) /\
    RAM.read self j h' = Ok (w, h').
Proof.
  intros Hok Hi Hj Hij [Hlen _].
  destruct (ram_ok_cell h self i Hok Hi)
    as (cells & ci & wi & Hself & Hnd & Hgeti & Hli & Hci).
  destruct (ram_ok_cell h self j Hok Hj)
    as (cells' & cj & wj & Hself' & _ & Hgetj & Hlj & Hcj).
  assert (cells' = cells) as -> by congruence.
  assert (ci <> cj) as Hne.
  { intros ->. pose proof (NoDup_lookup _ _ _ _ Hnd Hli Hlj). lia. }
  assert (ci <> self) as Hne' by congruence.
  exists (<[ci := RegisterObj d]> h), wj. split_and!.
  - by eapply RAM_write_cell.
  - by eapply RAM_read_cell.
  - apply (RAM_read_cell _ self cj cells); [|done|];
      by rewrite lookup_insert_ne.
Qed.

(** ** The flags *)

(** C3, as the code has it. With a Carry flag watching an ALU whose
    operand registers hold 8-bit words, [update()] sets the flag to 1
    exactly when the sum of the two's-complement readings of the operands
    exceeds [2 ^ 7 - 1 = 127], and to 0 otherwise, and [read()] then
    returns that bit. *)
Theorem FlagCarry_update_read (h : heap) (self u a b : loc) (s0 : Z)
    (old wa wb : string) :
  h !! self = Some (FlagObj s0 u) ->
  h !! u = Some (ALUObj a b old) ->
  h !! a = Some (RegisterObj wa) ->
  h !! b = Some (RegisterObj wb) ->
  word 8 wa -> word 8 wb ->
  let bit := if 127 <? signed wa + signed wb then 1 else 0 in
  FlagCarry.update self h = Ok (tt, <[self := FlagObj bit u]> h) /\
  (FlagCarry.update self ;;; FlagCarry.read self) h =
    Ok (bit, <[self := FlagObj bit u]> h).
Proof.
  intros Hself Hu Ha Hb Hwa Hwb bit.
  assert (FlagCarry.update self h = Ok (tt, <[self := FlagObj bit u]> h)) as Hupd.
  { unfold FlagCarry.update.
    rewrite (bind_ok _ _ h h u) by by eapply Flag_get_reg_ok.
    rewrite (bind_ok _ _ h h a) by by eapply ALU_get_a_ok.
    rewrite (read_operand h a wa) by done.
    rewrite (bind_ok _ _ h h b) by by eapply ALU_get_b_ok.
    rewrite (read_operand h b wb) by done.
    change (2 ^ 7 - 1) with 127. rewrite Z.gtb_ltb. subst bit.
    destruct (127 <? signed wa + signed wb); by eapply Flag_set_state_ok. }
  split; [done|].
  rewrite (bind_ok _ _ _ _ _ Hupd).
  eapply Flag_get_state_ok, lookup_insert_eq.
Qed.

(** The Minus flag's [update()], called as it is declared, sets the flag
    to 1 exactly when the watched 8-bit word reads negative. *)
Lemma FlagMinus_update_ok (h : heap) (self reg : loc) (s0 : Z) (w : string) :
  h !! self = Some (FlagObj s0 reg) ->
  h !! reg = Some (RegisterObj w) ->
  word 8 w ->
  FlagMinus.update self [] h =
    Ok (tt, <[self := FlagObj (if signed w <? 0 then 1 else 0) reg]> h).
Proof.
  intros Hself Hreg Hw. unfold FlagMinus.update, only_self.
  rewrite (bind_ok _ _ h h reg) by by eapply Flag_get_reg_ok.
  rewrite (read_operand h reg w) by done.
  destruct (signed w <? 0); by eapply Flag_set_state_ok.
Qed.

(** C4, where the code departs from it. With the Minus flag watching a
    register that holds the encoding of -1, or of 1, [read()] raises
    [TypeError]: it hands [update] an argument that [update] does not
    take. [update()] itself followed by a look at the state gives 1 for
    -1 and 0 for 1. *)
Theorem FlagMinus_read_minus_one :
  decimal_to_binary (-1) 8 = Ok "11111111" /\
  decimal_to_binary 1 8 = Ok "00000001" /\
  result_of (FlagMinus.read loc_minus (datapath "11111111" "00000000")) =
    Raise TypeError /\
  result_of (FlagMinus.read loc_minus (datapath "00000001" "00000000")) =
    Raise TypeError /\
  result_of ((FlagMinus.update loc_minus [] ;;; Flag.get_state loc_minus)
               (datapath "11111111" "00000000")) = Ok 1 /\
  result_of ((FlagMinus.update loc_minus [] ;;; Flag.get_state loc_minus)
               (datapath "00000001" "00000000")) = Ok 0.
Proof. split_and!; vm_compute; reflexivity. Qed.

(** C9, where the code departs from it. Two calls on correctly-typed
    input raise. [FlagMinus.read()] raises [TypeError] whatever the
    watched register holds, and [ALU.update(mode)] and [ALU.read(mode)]
    raise [UnboundLocalError] on 8-bit operands for every mode string
    other than ['add'] and ['sub']. *)
Theorem FlagMinus_read_and_ALU_mode_raise (h : heap) (self a b : loc)
    (old wa wb mode : string) :
  h !! self = Some (ALUObj a b old) ->
  h !! a = Some (RegisterObj wa) ->
  h !! b = Some (RegisterObj wb) ->
  word 8 wa -> word 8 wb ->
  mode <> "add" -> mode <> "sub" ->
  (forall flag : loc, FlagMinus.read flag h = Raise TypeError) /\
  ALU.update self mode h = Raise UnboundLocalError /\
  ALU.read self mode h = Raise UnboundLocalError.
Proof.
  intros Hself Ha Hb Hwa Hwb Hadd Hsub.
  split; [done|].
  assert (ALU.update self mode h = Raise UnboundLocalError) as Hupd.
  { unfold ALU.update.
    rewrite (bind_ok _ _ h h a) by by eapply ALU_get_a_ok.
    rewrite (read_operand h a wa) by done.
    rewrite (bind_ok _ _ h h b) by by eapply ALU_get_b_ok.
    rewrite (read_operand h b wb) by done.
    apply String.eqb_neq in Hadd as ->. apply String.eqb_neq in Hsub as ->.
    done. }
  split; [done|]. unfold ALU.read. by apply bind_raise.
Qed.

(** ** The program counter *)

Lemma advance_word (h : heap) (self : loc) (w : string) :
  h !! self = Some (RegisterObj w) ->
  word 4 w ->
  exists w',
    ProgramCounter.advance self h = Ok (tt, <[self := RegisterObj w']> h) /\
    word 4 w' /\
    unsigned w' = (unsigned w + 1) mod 16.
Proof.
  intros Hself Hw. unfold ProgramCounter.advance.
  rewrite (bind_ok _ _ h h w) by (unfold Register.get_state; by rewrite Hself).
  rewrite (bind_ok _ _ h h (unsigned w)).
  2: { apply lift_ok, int_bits; [by eapply word_nonempty | apply Hw]. }
  destruct (encode_word 4 ((unsigned w + 1) mod 2 ^ 4)) as [Hword Hval].
  { lia. }
  { apply Z.mod_pos_bound. done. }
  eexists. split_and!; [|exact Hword|exact Hval].
  unfold Register.set_state. by rewrite Hself.
Qed.

Lemma advance_times_word (n : nat) (h : heap) (self : loc) (w : string) :
  h !! self = Some (RegisterObj w) ->
  word 4 w ->
  exists w',
    advance_times n self h = Ok (tt, <[self := RegisterObj w']> h) /\
    word 4 w' /\
    unsigned w' = (unsigned w + Z.of_nat n) mod 16.
Proof.
  revert h w. induction n as [|n IH]; intros h w Hself Hw.
  - exists w. split_and!; [|done|].
    + cbn [advance_times]. unfold ret. by rewrite insert_id.
    + pose proof (unsigned_range w (proj2 Hw)) as R.
      unfold Py.len in R. rewrite (proj1 Hw) in R.
      rewrite Z.add_0_r, Z.mod_small; [done|]. change (2 ^ Z.of_nat 4) with 16 in R. lia.
  - destruct (advance_word h self w Hself Hw) as (w1 & Hadv & Hw1 & Hv1).
    destruct (IH (<[self := RegisterObj w1]> h) w1) as (w' & Hrest & Hw' & Hv');
      [apply lookup_insert_eq | done |].
    exists w'. split_and!; [|done|].
    + cbn [advance_times]. rewrite (bind_ok _ _ _ _ _ Hadv), Hrest.
      by rewrite insert_insert_eq.
    + rewrite Hv', Hv1, Z.add_mod_idemp_l by lia. f_equal. lia.
Qed.

(** C8. On a stored 4-bit word, [advance()] does not fail and overwrites
    the state with the 4-bit word of the unsigned value plus one, modulo
    16; from ['0000'], 16 calls in a row bring the counter back to
    ['0000']. *)
Theorem ProgramCounter_advance_mod16 (h : heap) (self : loc) (w : string) :
  h !! self = Some (RegisterObj w) ->
  word 4 w ->
  (exists w',
     ProgramCounter.advance self h = Ok (tt, <[self := RegisterObj w']> h) /\
     word 4 w' /\
     unsigned w' = (unsigned w + 1) mod 16) /\
  (w = "0000" ->
   exists h',
     advance_times 16 self h = Ok (tt, h') /\
     Register.read self h' = Ok ("0000", h')).
Proof.
  intros Hself Hw. split; [by apply advance_word|].
  intros ->.
  destruct (advance_times_word 16 h self "0000" Hself Hw) as (w' & Hrun & Hw' & Hv').
  assert (w' = "0000") as ->.
  { apply unsigned_inj; [apply Hw' | done | by destruct Hw' as [-> _] | by rewrite Hv']. }
  eexists. split; [exact Hrun|].
  apply Register_read_ok, lookup_insert_eq.
Qed.

(** ** Hexadecimal input *)

Lemma hex_digit_not_x (c : ascii) :
  Py.is_digit 16 c = true -> Py.mem c "0x" = Ascii.eqb c "0".
Proof. destruct c as [[] [] [] [] [] [] [] []]; vm_compute; congruence. Qed.

(** On hexadecimal digits, [lstrip("0x")] removes the leading zeros, and
    leaves digits of the same value. *)
Lemma lstrip_hex_digits (ds : string) :
  hex_digits ds = true ->
  hex_value ds <> 0 ->
  Py.lstrip "0x" ds <> "" /\
  hex_digits (Py.lstrip "0x" ds) = true /\
  hex_value (Py.lstrip "0x" ds) = hex_value ds.
Proof.
  unfold hex_digits, hex_value. induction ds as [|c ds IH]; intros Hd Hv; [done|].
  pose proof Hd as Hd'. cbn [all_chars] in Hd'.
  apply andb_true_iff in Hd' as [Hc Hds].
  cbn [Py.lstrip]. rewrite (hex_digit_not_x c Hc).
  destruct (Ascii.eqb_spec c "0") as [-> | Hne]; [|done].
  apply IH; [done|]. exact Hv.
Qed.

(** The leading bits of a bit string are its value without the bits
    dropped. *)
Lemma digits_value_take (k : nat) (s : string) (acc : Z) :
  bits s = true ->
  (k <= String.length s)%nat ->
  digits_value 2 acc (Py.take k s) =
  digits_value 2 acc s / 2 ^ (Py.len s - Z.of_nat k).
Proof.
  revert k acc. induction s as [|c s IH]; intros k acc Hb Hk.
  - simpl in Hk. assert (k = 0%nat) as -> by lia. simpl. by rewrite Z.div_1_r.
  - destruct k as [|k].
    + change (digits_value 2 acc (Py.take 0 (String c s))) with acc.
      rewrite Z.sub_0_r.
      pose proof (unsigned_range (String c s) Hb) as R. unfold unsigned in R.
      rewrite (digits_value_acc 2 acc (String c s)).
      rewrite Z.div_add_l by lia. rewrite Z.div_small by done. lia.
    + unfold bits in Hb. cbn [all_chars] in Hb.
      apply andb_true_iff in Hb as [_ Hb]. simpl in Hk.
      cbn [Py.take digits_value]. rewrite IH by (done || lia).
      f_equal. f_equal. unfold Py.len. simpl String.length. lia.
Qed.

(** What [bin(n)[2:].zfill(width)[:width]] is for a natural number [n]
    and a width that is not negative. *)
Lemma zfill_slice (n bit_width : Z) :
  0 < n -> 0 <= bit_width ->
  let r := Py.slice_to bit_width
             (Py.zfill bit_width (Py.drop 2 (Py.bin n))) in
  word (Z.to_nat bit_width) r /\
  (n < 2 ^ bit_width -> unsigned r = n) /\
  (2 ^ bit_width <= n ->
   unsigned r = n / 2 ^ (Z.log2 n + 1 - bit_width)).
Proof.
  intros Hn Hw r. subst r. unfold Py.slice_to.
  destruct (Z.ltb_spec bit_width 0) as [? | _]; [lia|].
  destruct (bin_digits n) as (Hb & Hv & Hl); [lia|].
  set (s := Py.drop 2 (Py.bin n)) in *.
  destruct (Z.lt_ge_cases n (2 ^ bit_width)) as [Hsmall | Hbig].
  - assert (1 <= bit_width).
    { destruct (Z.eq_dec bit_width 0) as [-> | ?]; [simpl in Hsmall|]; lia. }
    destruct (encode_word (Z.to_nat bit_width) n) as [Hword Hval];
      [lia | rewrite Z2Nat.id by lia; lia |].
    rewrite Z2Nat.id in Hword, Hval by lia. fold s in Hword, Hval.
    rewrite take_all by (destruct Hword as [-> _]; lia).
    split_and!; [done | done | lia].
  - assert (bit_width <= Z.log2 n) by (by apply Z.log2_le_pow2).
    assert (Z.to_nat bit_width <= String.length s)%nat
      by (unfold Py.len in Hl; lia).
    rewrite zfill_bits by done.
    replace (Z.to_nat (bit_width - Py.len s)) with 0%nat by lia.
    change (Py.zeros 0 +:+ s) with s.
    split_and!.
    + split; [by apply length_take | by apply all_chars_take].
    + lia.
    + intros _. unfold unsigned. rewrite digits_value_take by done.
      fold (unsigned s). rewrite Hv, Hl, Z2Nat.id by lia. done.
Qed.

(** C7, as the code has it. For hexadecimal digits [ds] of a value other
    than zero, given with or without the prefix [0x], and a width that is
    not negative, [hex_to_binary] returns a bit string of exactly [width]
    characters: the binary digits of the value padded with zeros on the
    left when the value fits in [width] bits, and otherwise the [width]
    high-order bits of the value, the low-order bits being cut off. *)
Theorem hex_to_binary_width (ds : string) (bit_width : Z) :
  hex_digits ds = true ->
  hex_value ds <> 0 ->
  0 <= bit_width ->
  exists r,
    hex_to_binary ds bit_width = Ok r /\
    hex_to_binary ("0x" +:+ ds) bit_width = Ok r /\
    word (Z.to_nat bit_width) r /\
    (hex_value ds < 2 ^ bit_width -> unsigned r = hex_value ds) /\
    (2 ^ bit_width <= hex_value ds ->
     unsigned r =
       hex_value ds / 2 ^ (Z.log2 (hex_value ds) + 1 - bit_width)).
Proof.
  intros Hd Hv Hw.
  destruct (lstrip_hex_digits ds Hd Hv) as (Hne & Hd' & Hv').
  assert (0 < hex_value ds) as Hpos.
  { pose proof (digits_value_range 16 ds Hd) as R. unfold hex_value in *. lia. }
  destruct (zfill_slice (hex_value ds) bit_width Hpos Hw) as (Hword & Hsmall & Hbig).
  assert (hex_to_binary ds bit_width =
          Ok (Py.slice_to bit_width
                (Py.zfill bit_width (Py.drop 2 (Py.bin (hex_value ds)))))) as Hrun.
  { unfold hex_to_binary. rewrite (int_digits 16 _ Hne Hd').
    fold (hex_value (Py.lstrip "0x" ds)). by rewrite Hv'. }
  eexists. split_and!; [exact Hrun | | exact Hword | exact Hsmall | exact Hbig].
  rewrite <- Hrun. reflexivity.
Qed.

(** ** The claims on concrete machines *)

(** The store the constructor of the RAM builds from nothing. *)
Lemma new_ram_ok : ram_ok new_ram loc_ram.
Proof.
  exists (seq 0 16). split_and!.
  - vm_compute. reflexivity.
  - reflexivity.
  - apply NoDup_seq.
  - intros c Hc. apply elem_of_seq in Hc.
    assert (c < 16)%nat as Hlt by lia. clear Hc.
    do 16 (destruct c as [|c]; [eexists; vm_compute; reflexivity|]). lia.
Qed.

(** C1 on the operands 5 and 3, and 3 and 5. *)
Lemma ALU_read_fresh_wrapped_witness :
  result_of (ALU.read loc_alu "add" (datapath "00000101" "00000011")) =
    Ok "00001000" /\
  result_of (ALU.read loc_alu "sub" (datapath "00000011" "00000101")) =
    Ok "11111110".
Proof.
  split.
  - destruct (ALU_read_fresh_wrapped (datapath "00000101" "00000011")
                loc_alu loc_a loc_b "00000000" "00000101" "00000011" "add")
      as (r & Hrun & _ & _ & _ & Hadd & _);
      [vm_compute; reflexivity | vm_compute; reflexivity
      | vm_compute; reflexivity | done | done | left; reflexivity |].
    rewrite Hrun. simpl. f_equal. apply Hadd; reflexivity.
  - destruct (ALU_read_fresh_wrapped (datapath "00000011" "00000101")
                loc_alu loc_a loc_b "00000000" "00000011" "00000101" "sub")
      as (r & Hrun & _ & _ & _ & _ & Hsub);
      [vm_compute; reflexivity | vm_compute; reflexivity
      | vm_compute; reflexivity | done | done | right; reflexivity |].
    rewrite Hrun. simpl. f_equal. apply Hsub; reflexivity.
Defined.

(** C2 on a negative word. *)
Lemma decimal_to_binary_binary_to_decimal_witness :
  word 8 "10110010" /\
  (let* d := binary_to_decimal "10110010" in decimal_to_binary d 8) =
    Ok "10110010".
Proof.
  split; [done|]. apply decimal_to_binary_binary_to_decimal. done.
Defined.

(** C3 fails as stated: with operands ['10000000'] and ['00000000'] the
    unsigned sum is 128, above 127, and [update()] then [read()] return
    0. *)
Lemma FlagCarry_unsigned_sum_counterexample :
  word 8 "10000000" /\ word 8 "00000000" /\
  unsigned "10000000" + unsigned "00000000" = 128 /\
  result_of ((FlagCarry.update loc_carry ;;; FlagCarry.read loc_carry)
               (datapath "10000000" "00000000")) = Ok 0.
Proof. split_and!; by vm_compute. Qed.

(** C3 as amended, on 64 + 64. *)
Lemma FlagCarry_update_read_witness :
  signed "01000000" + signed "01000000" = 128 /\
  result_of ((FlagCarry.update loc_carry ;;; FlagCarry.read loc_carry)
               (datapath "01000000" "01000000")) = Ok 1.
Proof.
  split; [reflexivity|].
  destruct (FlagCarry_update_read (datapath "01000000" "01000000")
              loc_carry loc_alu loc_a loc_b 0 "00000000" "01000000" "01000000")
    as [_ Hrun];
    [vm_compute; reflexivity | vm_compute; reflexivity | vm_compute; reflexivity
    | vm_compute; reflexivity | done | done |].
  rewrite Hrun. reflexivity.
Defined.

(** C5 fails as stated: the 8 characters ['abcdefgh'] are not a bit
    string, and the write succeeds and stores them. *)
Lemma RAM_write_alphabet_counterexample :
  bits "abcdefgh" = false /\
  result_of ((RAM.write loc_ram (VStr "abcdefgh") 0 ;;; RAM.read loc_ram 0)
               new_ram) = Ok "abcdefgh".
Proof. split; vm_compute; reflexivity. Qed.

(** C5 as amended, on a word of 8 and on a string of 7 characters. *)
Lemma RAM_write_validation_witness :
  (exists h', RAM.write loc_ram (VStr "10101010") 15 new_ram = Ok (tt, h') /\
              RAM.read loc_ram 15 h' = Ok ("10101010", h')) /\
  (exists msg, RAM.write loc_ram (VStr "1010101") 15 new_ram =
                 Raise (AssertionError msg)).
Proof.
  split.
  - destruct (RAM_write_validation new_ram loc_ram (VStr "10101010") 15)
      as [_ Hok]; [exact new_ram_ok | lia |].
    apply Hok; reflexivity.
  - destruct (RAM_write_validation new_ram loc_ram (VStr "1010101") 15)
      as [[_ Hraise] _]; [exact new_ram_ok | lia |].
    apply Hraise. intros (s & Hs & Hlen). injection Hs as <-. discriminate Hlen.
Defined.

(** C6 fails as stated: address -1 is outside [0, 16), and reading it
    returns the word at address 15, writing it overwrites that word. *)
Lemma RAM_negative_address_counterexample :
  result_of (RAM.read loc_ram (-1) new_ram) = Ok "00000000" /\
  result_of ((RAM.write loc_ram (VStr "10101010") (-1) ;;; RAM.read loc_ram 15)
               new_ram) = Ok "10101010".
Proof. split; vm_compute; reflexivity. Qed.

(** C6 as amended, on address 16. *)
Lemma RAM_index_errors_witness :
  RAM.read loc_ram 16 new_ram = Raise IndexError /\
  RAM.write loc_ram (VStr "10101010") 16 new_ram = Raise IndexError.
Proof.
  destruct (RAM_index_errors new_ram loc_ram 16 "10101010")
    as [Hout _]; [exact new_ram_ok | reflexivity |].
  apply Hout. right. lia.
Defined.

(** C7 fails as stated: [0x100] is 256, whose 8 low-order bits are all
    zero; at width 8 the code returns the 8 high-order bits
    ['10000000'] and cuts the low-order bit off. *)
Lemma hex_to_binary_truncation_counterexample :
  Py.int "100" 16 = Ok 256 /\
  hex_to_binary "0x100" 8 = Ok "10000000" /\
  unsigned "10000000" <> 256 mod 2 ^ 8.
Proof. split_and!; try (vm_compute; reflexivity). vm_compute. discriminate. Qed.

(** The all-zero inputs, which the statement of C7 above leaves out:
    [lstrip] leaves nothing of them, and [int] refuses the empty
    string. *)
Example hex_to_binary_zero :
  hex_to_binary "0x0" 8 = Raise ValueError /\
  hex_to_binary "0" 8 = Raise ValueError /\
  hex_to_binary "0x00" 8 = Raise ValueError.
Proof. split_and!; vm_compute; reflexivity. Qed.

(** C7 as amended, on a value of 9 bits and on one of 6 bits. *)
Lemma hex_to_binary_width_witness :
  hex_to_binary "0x1ff" 8 = Ok "11111111" /\
  hex_to_binary "0x2a" 8 = Ok "00101010".
Proof.
  split.
  - destruct (hex_to_binary_width "1ff" 8) as (r & _ & Hrun & Hword & _ & Hbig);
      [reflexivity | discriminate | lia |].
    change (hex_to_binary ("0x" +:+ "1ff") 8 = Ok "11111111").
    rewrite Hrun. f_equal.
    apply unsigned_inj; [apply Hword | done | by destruct Hword as [-> _] |].
    rewrite Hbig; [reflexivity | vm_compute; discriminate].
  - destruct (hex_to_binary_width "2a" 8) as (r & _ & Hrun & Hword & Hsmall & _);
      [reflexivity | discriminate | lia |].
    change (hex_to_binary ("0x" +:+ "2a") 8 = Ok "00101010").
    rewrite Hrun. f_equal.
    apply unsigned_inj; [apply Hword | done | by destruct Hword as [-> _] |].
    rewrite Hsmall; [reflexivity | reflexivity].
Defined.

(** C8 on a new program counter. *)
Lemma ProgramCounter_advance_mod16_witness :
  exists h',
    advance_times 16 loc_pc new_counter = Ok (tt, h') /\
    Register.read loc_pc h' = Ok ("0000", h').
Proof.
  destruct (ProgramCounter_advance_mod16 new_counter loc_pc "0000")
    as [_ Hloop]; [vm_compute; reflexivity | done |].
  apply Hloop. reflexivity.
Defined.

(** C9 on the mode ['mul']. *)
Lemma FlagMinus_read_and_ALU_mode_raise_witness :
  FlagMinus.read loc_minus (datapath "00000101" "00000011") = Raise TypeError /\
  ALU.read loc_alu "mul" (datapath "00000101" "00000011") =
    Raise UnboundLocalError.
Proof.
  destruct (FlagMinus_read_and_ALU_mode_raise (datapath "00000101" "00000011")
              loc_alu loc_a loc_b "00000000" "00000101" "00000011" "mul")
    as (Hflag & _ & Halu);
    [vm_compute; reflexivity | vm_compute; reflexivity | vm_compute; reflexivity
    | done | done | discriminate | discriminate |].
  split; [apply Hflag | exact Halu].
Defined.

(** C10 on a new RAM, writing address 3 and reading address 5. *)
Lemma RAM_write_frame_witness :
  exists h' w,
    RAM.write loc_ram (VStr "10101010") 3 new_ram = Ok (tt, h') /\
    RAM.read loc_ram 5 new_ram = Ok (w, new_ram) /\
    RAM.read loc_ram 5 h' = Ok (w, h').
Proof.
  apply RAM_write_frame; [exact new_ram_ok | lia | lia | lia | done].
Defined.

(** * Further properties of the code *)

(** ** The codec at any width *)

Lemma signed_wrap (n : nat) (w : string) (v : Z) :
  word (S n) w -> unsigned w = v mod 2 ^ Z.of_nat (S n) -> signed w = wrap n v.
Proof.
  intros Hw Hu. rewrite (signed_unsigned n w Hw), Hu. unfold wrap.
  rewrite Nat2Z.inj_succ, Z.pow_succ_r by lia.
  set (k := 2 ^ Z.of_nat n). assert (0 < k) as Hk by (apply Z.pow_pos_nonneg; lia).
  pose proof (Z.mod_pos_bound v (2 * k)) as Hb.
  pose proof (Z.div_mod v (2 * k)) as Hd.
  set (u := v mod (2 * k)) in *. set (q := v / (2 * k)) in *.
  destruct (Z.ltb_spec u k).
  - assert (u + k = (v + k) mod (2 * k)) as <-; [|lia].
    apply (Z.mod_unique _ _ q); lia.
  - assert (u - k = (v + k) mod (2 * k)) as <-; [|lia].
    apply (Z.mod_unique _ _ (q + 1)); lia.
Qed.

Lemma wrap_small (n : nat) (v : Z) :
  - 2 ^ Z.of_nat n <= v < 2 ^ Z.of_nat n -> wrap n v = v.
Proof.
  intros Hv. unfold wrap. rewrite Nat2Z.inj_succ, Z.pow_succ_r by lia.
  rewrite Z.mod_small; lia.
Qed.

(** X1. Encoding a number at a width and decoding the result gives the
    number back when it is in the two's-complement range of the width;
    one bit beyond the range, the number comes back wrapped into it. *)
Theorem binary_to_decimal_decimal_to_binary (n : nat) (v : Z) :
  - 2 ^ Z.of_nat (S n) <= v < 2 ^ Z.of_nat (S n) ->
  (let* r := decimal_to_binary v (Z.of_nat (S n)) in binary_to_decimal r) =
    Ok (wrap n v) /\
  (- 2 ^ Z.of_nat n <= v < 2 ^ Z.of_nat n ->
   (let* r := decimal_to_binary v (Z.of_nat (S n)) in binary_to_decimal r) =
     Ok v).
Proof.
  intros Hv.
  destruct (decimal_to_binary_word (S n) v) as (r & Hr & Hword & Hval);
    [lia | done |].
  assert ((let* r := decimal_to_binary v (Z.of_nat (S n)) in binary_to_decimal r)
          = Ok (wrap n v)) as Hrun.
  { rewrite Hr. cbn [res_bind].
    rewrite (binary_to_decimal_signed r); [|by eapply word_nonempty|apply Hword].
    f_equal. by apply signed_wrap. }
  split; [done|]. intros Hsmall. by rewrite Hrun, wrap_small.
Qed.

Lemma binary_to_decimal_decimal_to_binary_witness :
  (let* r := decimal_to_binary (-128) 8 in binary_to_decimal r) = Ok (-128) /\
  (let* r := decimal_to_binary 200 8 in binary_to_decimal r) = Ok (-56).
Proof.
  split.
  - destruct (binary_to_decimal_decimal_to_binary 7 (-128)) as [_ Hsmall];
      [simpl; lia|].
    apply Hsmall. simpl. lia.
  - destruct (binary_to_decimal_decimal_to_binary 7 200) as [Hwrap _];
      [simpl; lia|].
    exact Hwrap.
Defined.

(** X2. On a non-empty bit string, [binary_to_decimal] returns a number
    in the two's-complement range of the string's own length, congruent
    to the unsigned reading modulo [2 ^ length], and negative exactly
    when the first character is ['1']. *)
Theorem binary_to_decimal_range (w : string) :
  w <> "" -> bits w = true ->
  exists v,
    binary_to_decimal w = Ok v /\
    - 2 ^ (Py.len w - 1) <= v < 2 ^ (Py.len w - 1) /\
    v mod 2 ^ Py.len w = unsigned w /\
    (v < 0 <-> Py.first w = Ok "1"%char).
Proof.
  intros Hne Hb. exists (signed w).
  destruct w as [|c w]; [done|].
  assert (word (S (String.length w)) (String c w)) as Hw by done.
  assert (Py.len (String c w) - 1 = Z.of_nat (String.length w)) as ->
    by (unfold Py.len; simpl; lia).
  assert (Py.len (String c w) = Z.of_nat (S (String.length w))) as Hl by done.
  split_and!.
  - by apply binary_to_decimal_signed.
  - apply (signed_range _ _ Hw).
  - apply (signed_range _ _ Hw).
  - rewrite Hl. apply (signed_mod _ _ Hw).
  - pose proof (unsigned_range (String c w) Hb) as R.
    unfold bits in Hb. cbn [all_chars] in Hb.
    apply andb_true_iff in Hb as [Hc _].
    destruct (is_bit_cases c Hc); subst c.
    + change (signed (String "0" w)) with (unsigned (String "0" w)).
      split; [lia | discriminate].
    + change (signed (String "1" w))
        with (unsigned (String "1" w) - 2 ^ Py.len (String "1" w)).
      split; [done | lia].
Qed.

Lemma binary_to_decimal_range_witness :
  exists v,
    binary_to_decimal "1011" = Ok v /\
    - 2 ^ (Py.len "1011" - 1) <= v < 2 ^ (Py.len "1011" - 1) /\
    v mod 2 ^ Py.len "1011" = unsigned "1011" /\
    (v < 0 <-> Py.first "1011" = Ok "1"%char).
Proof. apply binary_to_decimal_range; [discriminate | reflexivity]. Defined.

(** X3. At every width from 1 on, decoding a word and encoding the
    number at the word's width gives the word back. *)
Theorem decimal_to_binary_binary_to_decimal_any_width (n : nat) (w : string) :
  word (S n) w ->
  (let* d := binary_to_decimal w in decimal_to_binary d (Z.of_nat (S n))) =
    Ok w.
Proof.
  intros Hw.
  rewrite (binary_to_decimal_signed w); [|by eapply word_nonempty | apply Hw].
  cbn [res_bind].
  pose proof (signed_range n w Hw) as R.
  destruct (decimal_to_binary_word (S n) (signed w)) as (r & Hr & Hword & Hval).
  { lia. }
  { rewrite Nat2Z.inj_succ, Z.pow_succ_r by lia. lia. }
  rewrite Hr. f_equal.
  apply unsigned_inj; [apply Hword | apply Hw | |].
  - destruct Hword as [-> _], Hw as [-> _]. done.
  - rewrite Hval. apply (signed_mod n w Hw).
Qed.

Lemma decimal_to_binary_binary_to_decimal_any_width_witness :
  (let* d := binary_to_decimal "1010" in decimal_to_binary d 4) = Ok "1010".
Proof.
  apply (decimal_to_binary_binary_to_decimal_any_width 3 "1010"). done.
Defined.

(** X4. [decimal_to_binary] does not cut a number that is too large for
    the width: the result is the plain binary digits of the number,
    longer than the width. *)
Theorem decimal_to_binary_too_large (v bit_width : Z) :
  0 <= bit_width -> 2 ^ bit_width <= v ->
  exists r,
    decimal_to_binary v bit_width = Ok r /\
    bits r = true /\
    unsigned r = v /\
    Py.len r = Z.log2 v + 1 /\
    bit_width < Py.len r.
Proof.
  intros Hw Hv.
  assert (0 < v) as Hpos by (pose proof (Z.pow_pos_nonneg 2 bit_width); lia).
  destruct (bin_digits v) as (Hb & Hval & Hl); [lia|].
  assert (bit_width <= Z.log2 v) by (by apply Z.log2_le_pow2).
  exists (Py.drop 2 (Py.bin v)). split_and!; try done; [|lia].
  unfold decimal_to_binary.
  destruct (Z.ltb_spec v 0); [lia|]. cbn [res_bind].
  rewrite zfill_bits by done.
  replace (Z.to_nat (bit_width - Py.len (Py.drop 2 (Py.bin v)))) with 0%nat by lia.
  done.
Qed.

Lemma decimal_to_binary_too_large_witness :
  exists r,
    decimal_to_binary 300 8 = Ok r /\
    bits r = true /\ unsigned r = 300 /\
    Py.len r = Z.log2 300 + 1 /\ 8 < Py.len r.
Proof. apply decimal_to_binary_too_large; [lia | vm_compute; discriminate]. Defined.

(** X5. For a number below [- 2 ^ width], [decimal_to_binary] returns no
    bit string: [bin] of the still negative sum starts with ['-0b'], of
    which the slice keeps the ['b'], and the result is zeros, the letter
    ['b'] and the digits of the sum's absolute value. *)
Theorem decimal_to_binary_too_negative (v bit_width : Z) :
  0 <= bit_width -> v < - 2 ^ bit_width ->
  exists (k : nat) (p : positive),
    decimal_to_binary v bit_width =
      Ok (Py.zeros k +:+ String "b" (Py.pos_digits p)) /\
    Z.pos p = - (v + 2 ^ bit_width) /\
    bits (Py.zeros k +:+ String "b" (Py.pos_digits p)) = false.
Proof.
  intros Hw Hv. unfold decimal_to_binary.
  pose proof (Z.pow_pos_nonneg 2 bit_width) as Hp.
  destruct (Z.ltb_spec v 0); [|lia].
  destruct (Z.ltb_spec bit_width 0); [lia|].
  destruct (v + 2 ^ bit_width) as [|p|p] eqn:E; [lia | lia |].
  change (Py.drop 2 (Py.bin (Z.neg p))) with (String "b" (Py.pos_digits p)).
  cbn [res_bind].
  exists (Z.to_nat (bit_width - Py.len (String "b" (Py.pos_digits p)))), p.
  split_and!; [done | lia |].
  unfold bits. rewrite all_chars_append. apply andb_false_iff. by right.
Qed.

Lemma decimal_to_binary_too_negative_witness :
  exists (k : nat) (p : positive),
    decimal_to_binary (-600) 8 =
      Ok (Py.zeros k +:+ String "b" (Py.pos_digits p)) /\
    Z.pos p = - (-600 + 2 ^ 8) /\
    bits (Py.zeros k +:+ String "b" (Py.pos_digits p)) = false.
Proof.
  apply decimal_to_binary_too_negative; [lia | vm_compute; reflexivity].
Defined.

(** ** What [lstrip] does to hexadecimal input *)

Lemma lstrip_append (chars p s : string) :
  all_chars (fun c => Py.mem c chars) p = true ->
  Py.lstrip chars (p +:+ s) = Py.lstrip chars s.
Proof.
  induction p as [|c p IH]; intros Hp; [done|].
  cbn [all_chars] in Hp. apply andb_true_iff in Hp as [Hc Hp].
  change (String c p +:+ s) with (String c (p +:+ s)).
  cbn [Py.lstrip]. rewrite Hc. by apply IH.
Qed.

(** X6. [hex_to_binary] ignores any leading run of the characters ['0']
    and ['x'], in any order and number, not only the prefix [0x]. *)
Theorem hex_to_binary_leading_run (p s : string) (bit_width : Z) :
  all_chars (fun c => Py.mem c "0x") p = true ->
  hex_to_binary (p +:+ s) bit_width = hex_to_binary s bit_width.
Proof.
  intros Hp. unfold hex_to_binary. by rewrite lstrip_append.
Qed.

Lemma hex_to_binary_leading_run_witness :
  hex_to_binary "x0xx00x1f" 8 = hex_to_binary "1f" 8 /\
  hex_to_binary "1f" 8 = Ok "00011111".
Proof.
  split; [|reflexivity].
  apply (hex_to_binary_leading_run "x0xx00x" "1f" 8). reflexivity.
Defined.

(** X7. A string made only of the characters ['0'] and ['x'], so every
    writing of zero such as [0x0], [0] and [0x0000], and also the empty
    string, makes [hex_to_binary] raise [ValueError] at every width. *)
Theorem hex_to_binary_zero_raises (s : string) (bit_width : Z) :
  all_chars (fun c => Py.mem c "0x") s = true ->
  hex_to_binary s bit_width = Raise ValueError.
Proof.
  intros Hs. unfold hex_to_binary.
  rewrite <- (append_empty_r s), lstrip_append by done. reflexivity.
Qed.

Lemma hex_to_binary_zero_raises_witness :
  hex_to_binary "0x0000" 16 = Raise ValueError.
Proof. apply hex_to_binary_zero_raises. reflexivity. Defined.

(** ** The instruction register *)

Lemma take_drop (n : nat) (s : string) : Py.take n s +:+ Py.drop n s = s.
Proof.
  revert s. induction n as [|n IH]; intros [|c s]; try reflexivity.
  cbn [Py.take Py.drop].
  change (String c (Py.take n s) +:+ Py.drop n s)
    with (String c (Py.take n s +:+ Py.drop n s)).
  by rewrite IH.
Qed.

Lemma length_drop (n : nat) (s : string) :
  String.length (Py.drop n s) = (String.length s - n)%nat.
Proof.
  revert s. induction n as [|n IH]; intros [|c s]; simpl; done.
Qed.

Lemma all_chars_drop (p : ascii -> bool) (n : nat) (s : string) :
  all_chars p s = true -> all_chars p (Py.drop n s) = true.
Proof.
  revert s. induction n as [|n IH]; intros [|c s] H; simpl in *; try done.
  apply andb_true_iff in H as [_ Hs]. by apply IH.
Qed.

(** X8. The two views of an instruction register split the stored word:
    the op-code followed by the operand is the stored string, whatever
    it is; on an 8-bit word both are 4-bit words, the op-code the high
    and the operand the low nibble. Neither view changes the store. *)
Theorem InstructionRegister_views (h : heap) (self : loc) (w : string) :
  h !! self = Some (RegisterObj w) ->
  exists opcode operand,
    InstructionRegister.readOpCode self h = Ok (opcode, h) /\
    InstructionRegister.readOperand self h = Ok (operand, h) /\
    opcode +:+ operand = w /\
    (word 8 w ->
     word 4 opcode /\ word 4 operand /\
     unsigned w = 16 * unsigned opcode + unsigned operand).
Proof.
  intros Hself. exists (Py.take 4 w), (Py.drop 4 w).
  unfold InstructionRegister.readOpCode, InstructionRegister.readOperand.
  rewrite !(bind_ok _ _ h h w) by by apply Register_read_ok.
  split_and!; [done | done | apply take_drop |].
  intros [Hlen Hb].
  assert (word 4 (Py.take 4 w)) as Hop.
  { split; [apply length_take; lia | by apply all_chars_take]. }
  assert (word 4 (Py.drop 4 w)) as Hod.
  { split; [rewrite length_drop; lia | by apply all_chars_drop]. }
  split_and!; [done | done |].
  rewrite <- (take_drop 4 w) at 1. unfold unsigned.
  rewrite digits_value_append, digits_value_acc.
  unfold Py.len. destruct Hod as [-> _]. f_equal. apply Z.mul_comm.
Qed.

Lemma InstructionRegister_views_witness :
  exists opcode operand,
    InstructionRegister.readOpCode loc_a (datapath "10100011" "00000000") =
      Ok (opcode, datapath "10100011" "00000000") /\
    InstructionRegister.readOperand loc_a (datapath "10100011" "00000000") =
      Ok (operand, datapath "10100011" "00000000") /\
    opcode +:+ operand = "10100011" /\
    (word 8 "10100011" ->
     word 4 opcode /\ word 4 operand /\
     unsigned "10100011" = 16 * unsigned opcode + unsigned operand).
Proof. apply InstructionRegister_views. vm_compute. reflexivity. Defined.

(** ** The program counter on any state *)

(** X9. Whatever non-empty bit string a program counter holds, of 4
    characters or not, [advance()] succeeds and leaves a 4-bit word: the
    unsigned value plus one, modulo 16. *)
Theorem ProgramCounter_advance_any_width (h : heap) (self : loc) (w : string) :
  h !! self = Some (RegisterObj w) ->
  w <> "" -> bits w = true ->
  exists w',
    ProgramCounter.advance self h = Ok (tt, <[self := RegisterObj w']> h) /\
    word 4 w' /\
    unsigned w' = (unsigned w + 1) mod 16.
Proof.
  intros Hself Hne Hb. unfold ProgramCounter.advance.
  rewrite (bind_ok _ _ h h w) by (unfold Register.get_state; by rewrite Hself).
  rewrite (bind_ok _ _ h h (unsigned w)) by by apply lift_ok, int_bits.
  destruct (encode_word 4 ((unsigned w + 1) mod 2 ^ 4)) as [Hword Hval].
  { lia. }
  { apply Z.mod_pos_bound. done. }
  eexists. split_and!; [|exact Hword|exact Hval].
  unfold Register.set_state. by rewrite Hself.
Qed.

Lemma ProgramCounter_advance_any_width_witness :
  result_of ((ProgramCounter.advance loc_a ;;; Register.read loc_a)
               (datapath "11111111" "00000000")) = Ok "0000".
Proof.
  destruct (ProgramCounter_advance_any_width (datapath "11111111" "00000000")
              loc_a "11111111") as (w' & Hrun & Hword & Hval);
    [vm_compute; reflexivity | discriminate | reflexivity |].
  rewrite (bind_ok _ _ _ _ _ Hrun).
  rewrite (Register_read_ok _ loc_a w') by apply lookup_insert_eq.
  simpl. f_equal.
  apply unsigned_inj; [apply Hword | done | by destruct Hword as [-> _] |].
  rewrite Hval. reflexivity.
Defined.

(** X10. The program counter has period 16 from every 4-bit word: 16
    calls of [advance()] bring back the word it started from, and fewer
    calls (at least one) leave another word. *)
Theorem ProgramCounter_period (h : heap) (self : loc) (w : string) (k : nat) :
  h !! self = Some (RegisterObj w) ->
  word 4 w ->
  advance_times 16 self h = Ok (tt, <[self := RegisterObj w]> h) /\
  ((0 < k < 16)%nat ->
   exists w', advance_times k self h = Ok (tt, <[self := RegisterObj w']> h) /\
              word 4 w' /\ w' <> w).
Proof.
  intros Hself Hw.
  pose proof (unsigned_range w (proj2 Hw)) as R.
  unfold Py.len in R. rewrite (proj1 Hw) in R. change (2 ^ Z.of_nat 4) with 16 in R.
  split.
  - destruct (advance_times_word 16 h self w Hself Hw) as (w' & Hrun & Hw' & Hv').
    assert (w' = w) as ->; [|done].
    apply unsigned_inj; [apply Hw' | apply Hw | |].
    + destruct Hw' as [-> _], Hw as [-> _]. done.
    + rewrite Hv'. change (Z.of_nat 16) with (1 * 16).
      rewrite Z.mod_add by lia. apply Z.mod_small. lia.
  - intros Hk.
    destruct (advance_times_word k h self w Hself Hw) as (w' & Hrun & Hw' & Hv').
    exists w'. split_and!; [done | done |].
    intros ->. revert Hv'.
    destruct (Z.lt_ge_cases (unsigned w + Z.of_nat k) 16).
    + rewrite Z.mod_small by lia. lia.
    + replace (unsigned w + Z.of_nat k)
        with (unsigned w + Z.of_nat k - 16 + 1 * 16) by ring.
      rewrite Z.mod_add by lia. rewrite Z.mod_small by lia. lia.
Qed.

Lemma ProgramCounter_period_witness :
  advance_times 16 loc_pc new_counter =
    Ok (tt, <[loc_pc := RegisterObj "0000"]> new_counter) /\
  exists w', advance_times 5 loc_pc new_counter =
               Ok (tt, <[loc_pc := RegisterObj w']> new_counter) /\
             word 4 w' /\ w' <> "0000".
Proof.
  destruct (ProgramCounter_period new_counter loc_pc "0000" 5)
    as [Hfull Hpart]; [vm_compute; reflexivity | done |].
  split; [exact Hfull | apply Hpart; lia].
Defined.

(** ** The ALU beyond 8-bit operands and two modes *)

Lemma read_operand_bits (h : heap) (l : loc) (w : string) {B : Type}
    (k : Z -> M B) :
  h !! l = Some (RegisterObj w) -> w <> "" -> bits w = true ->
  (w' <- Register.read l ;; v <- lift (binary_to_decimal w') ;; k v) h =
  k (signed w) h.
Proof.
  intros Hl Hne Hb. rewrite (bind_ok _ _ h h w) by by apply Register_read_ok.
  rewrite (bind_ok _ _ h h (signed w)); [done|].
  by apply lift_ok, binary_to_decimal_signed.
Qed.

Lemma signed_range_upto8 (w : string) :
  w <> "" -> bits w = true -> (String.length w <= 8)%nat ->
  -128 <= signed w < 128 /\
  ((String.length w <= 7)%nat -> -64 <= signed w < 64).
Proof.
  intros Hne Hb Hlen. destruct w as [|c w]; [done|]. simpl in Hlen.
  assert (word (S (String.length w)) (String c w)) as Hw by done.
  pose proof (signed_range _ _ Hw) as R.
  split.
  - assert (2 ^ Z.of_nat (String.length w) <= 2 ^ 7)
      by (apply Z.pow_le_mono_r; lia).
    lia.
  - intros Hlen'. simpl in Hlen'.
    assert (2 ^ Z.of_nat (String.length w) <= 2 ^ 6)
      by (apply Z.pow_le_mono_r; lia).
    lia.
Qed.

(** [read] on operands that decode, for a result within 9 bits. *)
Lemma ALU_read_bits (h : heap) (self a b : loc) (old wa wb mode : string)
    (v : Z) :
  h !! self = Some (ALUObj a b old) ->
  h !! a = Some (RegisterObj wa) ->
  h !! b = Some (RegisterObj wb) ->
  wa <> "" -> bits wa = true -> wb <> "" -> bits wb = true ->
  (if String.eqb mode "add" then Some (signed wa + signed wb)
   else if String.eqb mode "sub" then Some (signed wa - signed wb)
   else None) = Some v ->
  - 2 ^ 8 <= v < 2 ^ 8 ->
  exists r, ALU.read self mode h = Ok (r, <[self := ALUObj a b r]> h) /\
            word 8 r /\ signed r = wrap8 v.
Proof.
  intros Hself Ha Hb Hna Hba Hnb Hbb Hmode Hv.
  destruct (decimal_to_binary_word 8 v) as (r & Hr & Hword & Hval); [lia | done |].
  exists r. split; [|split; [done | by apply signed_wrap8]].
  unfold ALU.read, ALU.update.
  assert ((a0 <- ALU.get_a self;;
           wa0 <- Register.read a0;;
           value_a <- lift (binary_to_decimal wa0);;
           b0 <- ALU.get_b self;;
           wb0 <- Register.read b0;;
           value_b <- lift (binary_to_decimal wb0);;
           match
             (if String.eqb mode "add" then Some (value_a + value_b)
              else if String.eqb mode "sub" then Some (value_a - value_b)
              else None)
           with
           | Some result =>
               s <- lift (decimal_to_binary result 8);;
               ALU.set_state self (Py.take 8 s)
           | None => raise UnboundLocalError
           end) h = Ok (tt, <[self := ALUObj a b r]> h)) as Hupd.
  { rewrite (bind_ok _ _ h h a) by by eapply ALU_get_a_ok.
    rewrite (read_operand_bits h a wa) by done.
    rewrite (bind_ok _ _ h h b) by by eapply ALU_get_b_ok.
    rewrite (read_operand_bits h b wb) by done.
    rewrite Hmode.
    rewrite (bind_ok _ _ h h r) by by apply lift_ok.
    rewrite take_all by (destruct Hword as [-> _]; lia).
    by eapply ALU_set_state_ok. }
  rewrite (bind_ok _ _ _ _ _ Hupd).
  unfold ALU.get_state. by rewrite lookup_insert_eq.
Qed.

(** X11. The ALU takes operands narrower than a byte, such as the words
    of nibble registers: on non-empty bit strings of at most 8
    characters, [read] returns an 8-bit word reading as the wrapped sum
    or difference of the operands' two's-complement readings, each at
    its own width; with both operands of at most 7 characters nothing
    wraps and the word reads as the exact sum or difference. *)
Theorem ALU_read_narrow_operands (h : heap) (self a b : loc)
    (old wa wb mode : string) :
  h !! self = Some (ALUObj a b old) ->
  h !! a = Some (RegisterObj wa) ->
  h !! b = Some (RegisterObj wb) ->
  wa <> "" -> bits wa = true -> (String.length wa <= 8)%nat ->
  wb <> "" -> bits wb = true -> (String.length wb <= 8)%nat ->
  mode = "add" \/ mode = "sub" ->
  exists r,
    ALU.read self mode h = Ok (r, <[self := ALUObj a b r]> h) /\
    word 8 r /\
    (mode = "add" -> signed r = wrap8 (signed wa + signed wb)) /\
    (mode = "sub" -> signed r = wrap8 (signed wa - signed wb)) /\
    ((String.length wa <= 7)%nat -> (String.length wb <= 7)%nat ->
     (mode = "add" -> signed r = signed wa + signed wb) /\
     (mode = "sub" -> signed r = signed wa - signed wb)).
Proof.
  intros Hself Ha Hb Hna Hba Hla Hnb Hbb Hlb Hmode.
  destruct (signed_range_upto8 wa Hna Hba Hla) as [Ra Ra'].
  destruct (signed_range_upto8 wb Hnb Hbb Hlb) as [Rb Rb'].
  set (v := if String.eqb mode "add" then signed wa + signed wb
            else signed wa - signed wb).
  destruct (ALU_read_bits h self a b old wa wb mode v)
    as (r & Hrun & Hword & Hs); try done.
  { subst v. destruct Hmode as [-> | ->]; reflexivity. }
  { subst v. change (2 ^ 8) with 256.
    destruct Hmode as [-> | ->]; simpl; lia. }
  exists r. split_and!; try done.
  - intros ->. exact Hs.
  - intros ->. exact Hs.
  - intros H7a H7b. specialize (Ra' H7a). specialize (Rb' H7b).
    rewrite Hs. unfold wrap8. change (2 ^ 7) with 128. change (2 ^ 8) with 256.
    split; intros ->; subst v; simpl; rewrite Z.mod_small; lia.
Qed.

Lemma ALU_read_narrow_operands_witness :
  result_of (ALU.read loc_alu "add" (datapath "0111" "1110")) = Ok "00000101".
Proof.
  destruct (ALU_read_narrow_operands (datapath "0111" "1110")
              loc_alu loc_a loc_b "00000000" "0111" "1110" "add")
    as (r & Hrun & Hword & _ & _ & Hexact);
    [vm_compute; reflexivity | vm_compute; reflexivity | vm_compute; reflexivity
    | discriminate | reflexivity | simpl; lia
    | discriminate | reflexivity | simpl; lia | left; reflexivity |].
  rewrite Hrun. simpl. f_equal.
  apply (signed_inj 7); [done | done |].
  destruct Hexact as [Hadd _]; [simpl; lia | simpl; lia |].
  rewrite Hadd; reflexivity.
Defined.

(** X12. The first operand is decoded before anything else is looked
    at: when its register holds a string [binary_to_decimal] refuses,
    such as the empty string of a plain [Register()], [update] and
    [read] raise that error for every mode, whatever the second operand
    holds. *)
Theorem ALU_first_operand_error (h : heap) (self a b : loc)
    (old wa mode : string) (e : exn) :
  h !! self = Some (ALUObj a b old) ->
  h !! a = Some (RegisterObj wa) ->
  binary_to_decimal wa = Raise e ->
  ALU.update self mode h = Raise e /\
  ALU.read self mode h = Raise e.
Proof.
  intros Hself Ha He.
  assert (ALU.update self mode h = Raise e) as Hupd.
  { unfold ALU.update.
    rewrite (bind_ok _ _ h h a) by by eapply ALU_get_a_ok.
    rewrite (bind_ok _ _ h h wa) by by apply Register_read_ok.
    apply bind_raise. unfold lift. by rewrite He. }
  split; [done|]. unfold ALU.read. by apply bind_raise.
Qed.

Lemma ALU_first_operand_error_witness :
  ALU.update loc_alu "mul" (datapath "" "1x") = Raise IndexError /\
  ALU.read loc_alu "mul" (datapath "" "1x") = Raise IndexError.
Proof.
  apply (ALU_first_operand_error (datapath "" "1x") loc_alu loc_a loc_b
           "00000000" ""); vm_compute; reflexivity.
Defined.

(** X13. An ALU whose two operands are one and the same register
    subtracts the register from itself: ['sub'] returns ['00000000']
    for every 8-bit word, and ['add'] the word reading as twice the
    value, wrapped. *)
Theorem ALU_same_operand (h : heap) (self a : loc) (old w : string) :
  h !! self = Some (ALUObj a a old) ->
  h !! a = Some (RegisterObj w) ->
  word 8 w ->
  ALU.read self "sub" h = Ok ("00000000", <[self := ALUObj a a "00000000"]> h) /\
  exists r, ALU.read self "add" h = Ok (r, <[self := ALUObj a a r]> h) /\
            word 8 r /\ signed r = wrap8 (2 * signed w).
Proof.
  intros Hself Ha Hw.
  assert (w <> "") as Hne by by eapply word_nonempty.
  pose proof (signed_range 7 w Hw) as R. change (2 ^ Z.of_nat 7) with 128 in R.
  split.
  - destruct (ALU_read_bits h self a a old w w "sub" 0)
      as (r & Hrun & Hword & Hs); try done; try apply Hw.
    { simpl. f_equal. lia. }
    assert (r = "00000000") as ->; [|done].
    by apply (signed_inj 7).
  - destruct (ALU_read_bits h self a a old w w "add" (2 * signed w))
      as (r & Hrun & Hword & Hs); try done; try apply Hw.
    { simpl. f_equal. lia. }
    { change (2 ^ 8) with 256. lia. }
    by exists r.
Qed.

Lemma ALU_same_operand_witness :
  result_of (ALU.read 1%nat "sub"
               (store_after (a <- ByteRegister.init ;;
                             u <- ALU.init a a ;;
                             Register.write a "10110010") ∅)) = Ok "00000000".
Proof.
  destruct (ALU_same_operand
              (store_after (a <- ByteRegister.init ;;
                            u <- ALU.init a a ;;
                            Register.write a "10110010") ∅)
              1%nat 0%nat "00000000" "10110010") as [Hsub _];
    [vm_compute; reflexivity | vm_compute; reflexivity | done |].
  rewrite Hsub. reflexivity.
Defined.

(** X14. Printing an ALU is not read-only: [__str__] recomputes in mode
    ['add'], so after a [read('sub')] it returns the sum and leaves the
    sum, not the difference, as the state of the ALU. *)
Theorem ALU_str_overwrites (h : heap) (self a b : loc) (old wa wb : string) :
  h !! self = Some (ALUObj a b old) ->
  h !! a = Some (RegisterObj wa) ->
  h !! b = Some (RegisterObj wb) ->
  word 8 wa -> word 8 wb ->
  exists r,
    (ALU.read self "sub" ;;; ALU.__str__ self) h =
      Ok (r, <[self := ALUObj a b r]> h) /\
    word 8 r /\
    signed r = wrap8 (signed wa + signed wb).
Proof.
  intros Hself Ha Hb Hwa Hwb.
  assert (a <> self /\ b <> self) as [Hna Hnb] by (split; congruence).
  pose proof (signed_range 7 wa Hwa) as Ra.
  pose proof (signed_range 7 wb Hwb) as Rb.
  change (2 ^ Z.of_nat 7) with 128 in Ra, Rb.
  destruct (ALU_read_bits h self a b old wa wb "sub" (signed wa - signed wb))
    as (r1 & Hrun1 & _ & _); try done; try apply Hwa; try apply Hwb;
    try (by eapply word_nonempty).
  { change (2 ^ 8) with 256. lia. }
  destruct (ALU_read_bits (<[self := ALUObj a b r1]> h) self a b r1 wa wb "add"
              (signed wa + signed wb))
    as (r & Hrun & Hword & Hs); try done; try apply Hwa; try apply Hwb;
    try (by eapply word_nonempty).
  { apply lookup_insert_eq. }
  { by rewrite lookup_insert_ne. }
  { by rewrite lookup_insert_ne. }
  { change (2 ^ 8) with 256. lia. }
  rewrite insert_insert_eq in Hrun.
  exists r. split_and!; [|done|done].
  rewrite (bind_ok _ _ _ _ _ Hrun1). unfold ALU.__str__.
  rewrite (bind_ok _ _ _ _ _ Hrun).
  unfold ALU.get_state. by rewrite lookup_insert_eq.
Qed.

Lemma ALU_str_overwrites_witness :
  result_of ((ALU.read loc_alu "sub" ;;; ALU.__str__ loc_alu)
               (datapath "00000011" "00000101")) = Ok "00001000".
Proof.
  destruct (ALU_str_overwrites (datapath "00000011" "00000101")
              loc_alu loc_a loc_b "00000000" "00000011" "00000101")
    as (r & Hrun & Hword & Hs);
    [vm_compute; reflexivity | vm_compute; reflexivity
    | vm_compute; reflexivity | done | done |].
  rewrite Hrun. simpl. f_equal. by apply (signed_inj 7).
Defined.

(** ** The flags on any watched word *)

Lemma unsigned_zero (w : string) :
  bits w = true -> (unsigned w = 0 <-> w = Py.zeros (String.length w)).
Proof.
  intros Hb. split.
  - intros Hz. apply unsigned_inj; [done | apply bits_zeros | |].
    + by rewrite length_zeros.
    + rewrite Hz. unfold unsigned. by rewrite digits_value_zeros.
  - intros ->. unfold unsigned. by rewrite digits_value_zeros.
Qed.

Lemma signed_zero (w : string) :
  w <> "" -> bits w = true -> (signed w =? 0) = (unsigned w =? 0).
Proof.
  intros Hne Hb. destruct w as [|c w]; [done|].
  assert (word (S (String.length w)) (String c w)) as Hw by done.
  rewrite (signed_unsigned _ _ Hw).
  pose proof (unsigned_range _ Hb) as R.
  change (Py.len (String c w)) with (Z.of_nat (S (String.length w))) in R.
  assert (0 < 2 ^ Z.of_nat (String.length w)) by (apply Z.pow_pos_nonneg; lia).
  destruct (Z.ltb_spec (unsigned (String c w)) (2 ^ Z.of_nat (String.length w)));
    [done|].
  destruct (Z.eqb_spec (unsigned (String c w) - 2 ^ Z.of_nat (S (String.length w))) 0),
           (Z.eqb_spec (unsigned (String c w)) 0); try done; lia.
Qed.

Lemma signed_negative (w : string) :
  bits w = true ->
  (signed w <? 0) = match w with String "1" _ => true | _ => false end.
Proof.
  intros Hb. pose proof (unsigned_range w Hb) as R.
  destruct w as [|c w]; [done|].
  unfold bits in Hb. cbn [all_chars] in Hb. apply andb_true_iff in Hb as [Hc _].
  destruct (is_bit_cases c Hc); subst c.
  - change (signed (String "0" w)) with (unsigned (String "0" w)).
    apply Z.ltb_ge. lia.
  - change (signed (String "1" w))
      with (unsigned (String "1" w) - 2 ^ Py.len (String "1" w)).
    apply Z.ltb_lt. lia.
Qed.

(** X15. The Zero flag is always fresh and looks at the whole word:
    after any non-empty bit string is written to the watched register,
    [read()] returns 1 exactly when every character is ['0'], and 0
    otherwise, whatever the flag and the register held before. *)
Theorem FlagZero_read_fresh (h : heap) (self reg : loc) (s0 : Z)
    (old w : string) :
  h !! self = Some (FlagObj s0 reg) ->
  h !! reg = Some (RegisterObj old) ->
  w <> "" -> bits w = true ->
  exists bit,
    (Register.write reg w ;;; FlagZero.read self) h =
      Ok (bit, <[self := FlagObj bit reg]> (<[reg := RegisterObj w]> h)) /\
    (bit = 1 \/ bit = 0) /\
    (bit = 1 <-> w = Py.zeros (String.length w)).
Proof.
  intros Hself Hreg Hne Hb.
  assert (reg <> self) as Hneq by congruence.
  set (h1 := <[reg := RegisterObj w]> h).
  assert (h1 !! self = Some (FlagObj s0 reg)) as Hself1
    by (unfold h1; by rewrite lookup_insert_ne).
  assert (h1 !! reg = Some (RegisterObj w)) as Hreg1
    by (unfold h1; apply lookup_insert_eq).
  exists (if unsigned w =? 0 then 1 else 0). split_and!.
  - rewrite (bind_ok _ _ h h1 tt) by by eapply Register_write_ok.
    unfold FlagZero.read, FlagZero.update.
    assert ((r <- Flag.get_reg self;;
             w0 <- Register.read r;;
             d <- lift (binary_to_decimal w0);;
             (if d =? 0 then Flag.set_state self 1 else Flag.set_state self 0)) h1
            = Ok (tt, <[self := FlagObj (if unsigned w =? 0 then 1 else 0) reg]> h1))
      as Hupd.
    { rewrite (bind_ok _ _ h1 h1 reg) by by eapply Flag_get_reg_ok.
      rewrite (read_operand_bits h1 reg w) by done.
      rewrite signed_zero by done.
      destruct (unsigned w =? 0); by eapply Flag_set_state_ok. }
    rewrite (bind_ok _ _ _ _ _ Hupd).
    eapply Flag_get_state_ok, lookup_insert_eq.
  - destruct (unsigned w =? 0); auto.
  - rewrite <- (unsigned_zero w Hb).
    destruct (Z.eqb_spec (unsigned w) 0); split; (done || lia).
Qed.

Lemma FlagZero_read_fresh_witness :
  result_of ((Register.write loc_a "00000000" ;;; FlagZero.read loc_minus)
               (datapath "00000001" "00000000")) = Ok 1.
Proof.
  destruct (FlagZero_read_fresh (datapath "00000001" "00000000")
              loc_minus loc_a 0 "00000001" "00000000")
    as (bit & Hrun & _ & Hbit);
    [vm_compute; reflexivity | vm_compute; reflexivity
    | discriminate | reflexivity |].
  rewrite Hrun. simpl. f_equal. by apply Hbit.
Defined.

(** X16. The Minus flag's [update()] looks at the first character only
    and works at every width: after any non-empty bit string is written
    to the watched register, it sets the flag to 1 exactly when the
    string starts with ['1']. *)
Theorem FlagMinus_update_any_width (h : heap) (self reg : loc) (s0 : Z)
    (old w : string) :
  h !! self = Some (FlagObj s0 reg) ->
  h !! reg = Some (RegisterObj old) ->
  w <> "" -> bits w = true ->
  exists bit,
    (Register.write reg w ;;; FlagMinus.update self [] ;;; Flag.get_state self) h =
      Ok (bit, <[self := FlagObj bit reg]> (<[reg := RegisterObj w]> h)) /\
    (bit = 1 \/ bit = 0) /\
    (bit = 1 <-> Py.first w = Ok "1"%char).
Proof.
  intros Hself Hreg Hne Hb.
  assert (reg <> self) as Hneq by congruence.
  set (h1 := <[reg := RegisterObj w]> h).
  assert (h1 !! self = Some (FlagObj s0 reg)) as Hself1
    by (unfold h1; by rewrite lookup_insert_ne).
  assert (h1 !! reg = Some (RegisterObj w)) as Hreg1
    by (unfold h1; apply lookup_insert_eq).
  exists (if signed w <? 0 then 1 else 0). split_and!.
  - rewrite (bind_ok _ _ h h1 tt) by by eapply Register_write_ok.
    assert (FlagMinus.update self [] h1
            = Ok (tt, <[self := FlagObj (if signed w <? 0 then 1 else 0) reg]> h1))
      as Hupd.
    { unfold FlagMinus.update, only_self.
      rewrite (bind_ok _ _ h1 h1 reg) by by eapply Flag_get_reg_ok.
      rewrite (read_operand_bits h1 reg w) by done.
      destruct (signed w <? 0); by eapply Flag_set_state_ok. }
    rewrite (bind_ok _ _ _ _ _ Hupd).
    eapply Flag_get_state_ok, lookup_insert_eq.
  - destruct (signed w <? 0); auto.
  - rewrite (signed_negative w Hb). destruct w as [|c w]; [done|].
    unfold bits in Hb. cbn [all_chars] in Hb. apply andb_true_iff in Hb as [Hc _].
    destruct (is_bit_cases c Hc); subst c; simpl; split; (done || discriminate).
Qed.

Lemma FlagMinus_update_any_width_witness :
  result_of ((Register.write loc_a "1000" ;;;
              FlagMinus.update loc_minus [] ;;; Flag.get_state loc_minus)
               (datapath "00000001" "00000000")) = Ok 1.
Proof.
  destruct (FlagMinus_update_any_width (datapath "00000001" "00000000")
              loc_minus loc_a 0 "00000001" "1000")
    as (bit & Hrun & _ & Hbit);
    [vm_compute; reflexivity | vm_compute; reflexivity
    | discriminate | reflexivity |].
  rewrite Hrun. simpl. f_equal. by apply Hbit.
Defined.

Lemma FlagCarry_update_bit (h : heap) (self u a b : loc) (s0 : Z)
    (old wa wb : string) :
  h !! self = Some (FlagObj s0 u) ->
  h !! u = Some (ALUObj a b old) ->
  h !! a = Some (RegisterObj wa) ->
  h !! b = Some (RegisterObj wb) ->
  word 8 wa -> word 8 wb ->
  FlagCarry.update self h =
    Ok (tt, <[self := FlagObj (if 127 <? signed wa + signed wb then 1 else 0) u]> h).
Proof.
  intros Hself Hu Ha Hb Hwa Hwb. unfold FlagCarry.update.
  rewrite (bind_ok _ _ h h u) by by eapply Flag_get_reg_ok.
  rewrite (bind_ok _ _ h h a) by by eapply ALU_get_a_ok.
  rewrite (read_operand h a wa) by done.
  rewrite (bind_ok _ _ h h b) by by eapply ALU_get_b_ok.
  rewrite (read_operand h b wb) by done.
  change (2 ^ 7 - 1) with 127. rewrite Z.gtb_ltb.
  destruct (127 <? signed wa + signed wb); by eapply Flag_set_state_ok.
Qed.

(** X17. In terms of the unsigned values of 8-bit operands, the Carry
    flag's [update()] sets the flag exactly when both operands are below
    128 and their sum is 128 or more: an operand with its top bit set
    always clears the flag, also when the unsigned sum passes 255. *)
Theorem FlagCarry_update_unsigned (h : heap) (self u a b : loc) (s0 : Z)
    (old wa wb : string) :
  h !! self = Some (FlagObj s0 u) ->
  h !! u = Some (ALUObj a b old) ->
  h !! a = Some (RegisterObj wa) ->
  h !! b = Some (RegisterObj wb) ->
  word 8 wa -> word 8 wb ->
  exists bit,
    FlagCarry.update self h = Ok (tt, <[self := FlagObj bit u]> h) /\
    (bit = 1 \/ bit = 0) /\
    (bit = 1 <->
     unsigned wa < 128 /\ unsigned wb < 128 /\ 128 <= unsigned wa + unsigned wb).
Proof.
  intros Hself Hu Ha Hb Hwa Hwb.
  exists (if 127 <? signed wa + signed wb then 1 else 0). split_and!.
  - by eapply FlagCarry_update_bit.
  - destruct (127 <? signed wa + signed wb); auto.
  - rewrite (signed_unsigned 7 wa Hwa), (signed_unsigned 7 wb Hwb).
    pose proof (unsigned_range wa (proj2 Hwa)) as Ra.
    pose proof (unsigned_range wb (proj2 Hwb)) as Rb.
    unfold Py.len in Ra, Rb. rewrite (proj1 Hwa) in Ra. rewrite (proj1 Hwb) in Rb.
    change (2 ^ Z.of_nat 7) with 128. change (2 ^ Z.of_nat 8) with 256 in *.
    destruct (Z.ltb_spec (unsigned wa) 128), (Z.ltb_spec (unsigned wb) 128);
      match goal with |- context [127 <? ?x] => destruct (Z.ltb_spec 127 x) end;
      split; (done || lia).
Qed.

Lemma FlagCarry_update_unsigned_witness :
  unsigned "11111111" + unsigned "11111111" = 510 /\
  result_of ((FlagCarry.update loc_carry ;;; FlagCarry.read loc_carry)
               (datapath "11111111" "11111111")) = Ok 0.
Proof.
  split; [reflexivity|].
  destruct (FlagCarry_update_unsigned (datapath "11111111" "11111111")
              loc_carry loc_alu loc_a loc_b 0 "00000000" "11111111" "11111111")
    as (bit & Hrun & [-> | ->] & Hbit);
    [vm_compute; reflexivity | vm_compute; reflexivity | vm_compute; reflexivity
    | vm_compute; reflexivity | done | done | |].
  - exfalso. destruct Hbit as [Hbit _]. destruct (Hbit eq_refl) as [Hlt _].
    vm_compute in Hlt. discriminate Hlt.
  - rewrite (bind_ok _ _ _ _ _ Hrun). reflexivity.
Defined.

(** X18. The Carry flag's [read()] does not look at the operands: it
    returns the bit of the last [update()], also after the operand
    registers have been written since. *)
Theorem FlagCarry_read_stale (h : heap) (self u a b : loc) (s0 : Z)
    (old wa wb wa' wb' : string) :
  h !! self = Some (FlagObj s0 u) ->
  h !! u = Some (ALUObj a b old) ->
  h !! a = Some (RegisterObj wa) ->
  h !! b = Some (RegisterObj wb) ->
  word 8 wa -> word 8 wb ->
  result_of ((FlagCarry.update self ;;;
              Register.write a wa' ;;;
              Register.write b wb' ;;;
              FlagCarry.read self) h) =
    Ok (if 127 <? signed wa + signed wb then 1 else 0).
Proof.
  intros Hself Hu Ha Hb Hwa Hwb.
  assert (a <> self /\ b <> self) as [Hna Hnb] by (split; congruence).
  set (bit := if 127 <? signed wa + signed wb then 1 else 0).
  rewrite (bind_ok _ _ _ _ _ (FlagCarry_update_bit h self u a b s0 old wa wb
                                Hself Hu Ha Hb Hwa Hwb)).
  fold bit. set (h1 := <[self := FlagObj bit u]> h).
  assert (h1 !! a = Some (RegisterObj wa)) as Ha1
    by (unfold h1; by rewrite lookup_insert_ne).
  rewrite (bind_ok _ _ h1 _ tt (Register_write_ok h1 a wa wa' Ha1)).
  set (h2 := <[a := RegisterObj wa']> h1).
  assert (exists wb0, h2 !! b = Some (RegisterObj wb0)) as [wb0 Hb2].
  { unfold h2. destruct (decide (a = b)) as [<- | Hab].
    - exists wa'. apply lookup_insert_eq.
    - exists wb. rewrite lookup_insert_ne by done.
      unfold h1. by rewrite lookup_insert_ne. }
  rewrite (bind_ok _ _ h2 _ tt (Register_write_ok h2 b wb0 wb' Hb2)).
  unfold FlagCarry.read.
  erewrite Flag_get_state_ok; [done|].
  rewrite lookup_insert_ne by done. unfold h2.
  rewrite lookup_insert_ne by done. apply lookup_insert_eq.
Qed.

Lemma FlagCarry_read_stale_witness :
  result_of ((FlagCarry.update loc_carry ;;;
              Register.write loc_a "00000000" ;;;
              Register.write loc_b "00000000" ;;;
              FlagCarry.read loc_carry) (datapath "01000000" "01000000")) = Ok 1.
Proof.
  apply (FlagCarry_read_stale (datapath "01000000" "01000000")
           loc_carry loc_alu loc_a loc_b 0 "00000000" "01000000" "01000000");
    (vm_compute; reflexivity) || done.
Defined.

(** ** The RAM from its constructor on *)

Lemma getitem_within {A : Type} (l : list A) (i : Z) :
  - Z.of_nat (length l) <= i < Z.of_nat (length l) ->
  exists x, Py.getitem l i = Ok x /\ x ∈ l.
Proof.
  intros Hi. destruct (Z.ltb_spec i 0) as [Hneg | Hpos].
  - rewrite getitem_negative by lia.
    destruct (getitem_in_range l (i + Z.of_nat (length l))) as (x & Hx & Hl);
      [lia|].
    exists x. split; [done | by eapply list_elem_of_lookup_2].
  - destruct (getitem_in_range l i) as (x & Hx & Hl); [lia|].
    exists x. split; [done | by eapply list_elem_of_lookup_2].
Qed.


(** X20. The words of the RAM keep their length: when every stored word
    has 8 characters, so after the constructor, every successful
    [write] keeps the sixteen distinct registers and the length of every
    stored word, and every address in [-16, 16) then reads as a string
    of 8 characters. *)
Theorem RAM_write_keeps_words8 (h h' : heap) (self : loc) (data : value)
    (address : Z) :
  ram_ok h self ->
  ram_words8 h self ->
  RAM.write self data address h = Ok (tt, h') ->
  ram_ok h' self /\
  ram_words8 h' self /\
  (forall a, -16 <= a < 16 ->
     exists w, RAM.read self a h' = Ok (w, h') /\ String.length w = 8%nat).
Proof.
  intros Hok (cells & Hself & Hwords) Hw.
  pose proof (RAM_write_keeps_ok h h' self data address Hok Hw) as Hok'.
  assert (ram_words8 h' self) as Hwords'.
  { unfold RAM.write in Hw. destruct data as [s| |]; try done.
    destruct (Z.eqb_spec (Py.len s) 8) as [Hlen | ?]; [|done].
    rewrite (bind_ok _ _ h h cells) in Hw by by apply RAM_get_state_ok.
    unfold bind, lift in Hw.
    destruct (Py.getitem cells address) as [c| |] eqn:Hc; try done.
    unfold Register.write, Register.set_state in Hw.
    destruct (h !! c) as [[w| | |]|] eqn:Hhc; try done.
    injection Hw as <-.
    assert (c <> self) as Hne by congruence.
    exists cells. rewrite lookup_insert_ne by done. split; [done|].
    intros c' Hin. destruct (decide (c = c')) as [<- | Hcc].
    - rewrite lookup_insert_eq. exists s. split; [done|]. unfold Py.len in Hlen. lia.
    - rewrite lookup_insert_ne by done. auto. }
  split_and!; [done | done |].
  intros a Ha.
  destruct Hok' as (cells' & Hself' & Hlen' & _ & _).
  destruct Hwords' as (cells'' & Hself'' & Hwords').
  assert (cells'' = cells') as -> by congruence.
  destruct (getitem_within cells' a) as (c & Hget & Hin); [lia|].
  destruct (Hwords' c Hin) as (w & Hc & Hlw).
  exists w. split; [by eapply RAM_read_cell | done].
Qed.

Lemma new_ram_words8 : ram_words8 new_ram loc_ram.
Proof.
  exists (seq 0 16). split; [vm_compute; reflexivity|].
  intros c Hc. apply elem_of_seq in Hc.
  assert (c < 16)%nat as Hlt by lia. clear Hc.
  do 16 (destruct c as [|c]; [eexists; split; vm_compute; reflexivity|]). lia.
Qed.

Lemma RAM_write_keeps_words8_witness :
  exists w,
    RAM.read loc_ram (-2)
      (store_after (RAM.write loc_ram (VStr "abcdefgh") 14) new_ram) =
      Ok (w, store_after (RAM.write loc_ram (VStr "abcdefgh") 14) new_ram) /\
    String.length w = 8%nat.
Proof.
  destruct (RAM_write_keeps_words8 new_ram
              (store_after (RAM.write loc_ram (VStr "abcdefgh") 14) new_ram)
              loc_ram (VStr "abcdefgh") 14) as (_ & _ & Hread);
    [exact new_ram_ok | exact new_ram_words8 | vm_compute; reflexivity |].
  apply Hread. lia.
Defined.

(** ** The ring counter *)

(** X21. With a positive number of time states [n] and a state in
    [0, n), [k] calls of [advance()] never fail and leave the state
    [(state + k) mod n]; so [n] calls bring the counter back to where
    it was. *)
Theorem RingCounter_advance_times (n s : Z) (k : nat) :
  0 < n -> 0 <= s < n ->
  ring_advance_times k {| RingCounter.state := s; RingCounter.n_time_states := n |} =
    inr {| RingCounter.state := (s + Z.of_nat k) mod n;
           RingCounter.n_time_states := n |} /\
  ring_advance_times (Z.to_nat n)
    {| RingCounter.state := s; RingCounter.n_time_states := n |} =
    inr {| RingCounter.state := s; RingCounter.n_time_states := n |}.
Proof.
  intros Hn Hs.
  assert (forall k s, 0 <= s < n ->
            ring_advance_times k
              {| RingCounter.state := s; RingCounter.n_time_states := n |} =
            inr {| RingCounter.state := (s + Z.of_nat k) mod n;
                   RingCounter.n_time_states := n |}) as Hgen.
  { clear s k Hs. intros k. induction k as [|k IH]; intros s Hs.
    - cbn [ring_advance_times]. by rewrite Z.add_0_r, Z.mod_small.
    - cbn [ring_advance_times]. unfold RingCounter.advance.
      cbn [RingCounter.n_time_states RingCounter.state].
      destruct (Z.eqb_spec n 0); [lia|].
      rewrite IH by (apply Z.mod_pos_bound; lia).
      rewrite Z.add_mod_idemp_l by lia. do 2 f_equal. f_equal. lia. }
  split; [by apply Hgen|].
  rewrite Hgen by done. rewrite Z2Nat.id by lia.
  replace (s + n) with (s + 1 * n) by ring.
  by rewrite Z.mod_add, Z.mod_small by lia.
Qed.

Lemma RingCounter_advance_times_witness :
  ring_advance_times 8 (RingCounter.init 6) =
    inr {| RingCounter.state := 2; RingCounter.n_time_states := 6 |} /\
  ring_advance_times 6 (RingCounter.init 6) = inr (RingCounter.init 6).
Proof.
  destruct (RingCounter_advance_times 6 0 8) as [Hk Hn]; [lia | lia |].
  split; [exact Hk | exact Hn].
Defined.

(** X22. [advance()] fails exactly for a ring counter of zero time
    states, with [ZeroDivisionError]; a negative number of time states
    [n] does not fail and leaves a state in [(n, 0]]. *)
Theorem RingCounter_advance_edge (self : RingCounter.t) :
  (RingCounter.advance self = inl RingCounter.ZeroDivisionError <->
   RingCounter.n_time_states self = 0) /\
  (RingCounter.n_time_states self < 0 ->
   exists self',
     RingCounter.advance self = inr self' /\
     RingCounter.n_time_states self' = RingCounter.n_time_states self /\
     RingCounter.n_time_states self < RingCounter.state self' <= 0).
Proof.
  unfold RingCounter.advance. split.
  - destruct (Z.eqb_spec (RingCounter.n_time_states self) 0); split; done.
  - intros Hn. destruct (Z.eqb_spec (RingCounter.n_time_states self) 0); [lia|].
    eexists. split_and!; [reflexivity | reflexivity | |];
      cbn [RingCounter.state]; apply Z.mod_neg_bound; lia.
Qed.

Lemma RingCounter_advance_edge_witness :
  exists self',
    RingCounter.advance (RingCounter.init (-3)) = inr self' /\
    RingCounter.n_time_states self' = -3 /\
    -3 < RingCounter.state self' <= 0.
Proof.
  destruct (RingCounter_advance_edge (RingCounter.init (-3))) as [_ Hneg].
  apply Hneg. simpl. lia.
Defined.

(** ** The clock's log *)

Lemma append_assoc (s t u : string) : (s +:+ t) +:+ u = s +:+ (t +:+ u).
Proof.
  induction s as [|c s IH]; [done|].
  change (String c ((s +:+ t) +:+ u) = String c (s +:+ (t +:+ u))).
  by rewrite IH.
Qed.

Lemma clock_ticks_cons (cpu : string) (rest : list string) (self : Clock.t)
    (files : gmap string string) :
  clock_ticks (cpu :: rest) self files =
  clock_ticks rest (Clock.advance self cpu files).1
    (Clock.advance self cpu files).2.
Proof. cbn [clock_ticks]. by destruct (Clock.advance self cpu files). Qed.

Lemma Clock_advance_later (self : Clock.t) (cpu : string)
    (files : gmap string string) :
  Clock.state self <> 0 ->
  Clock.advance self cpu files =
    ({| Clock.state := Clock.state self + 1; Clock.on := Clock.on self;
        Clock.log_file_path := Clock.log_file_path self |},
     <[Clock.log_file_path self :=
         default "" (files !! Clock.log_file_path self) +:+ cpu +:+ Clock.newline]>
       files).
Proof.
  intros Hs. unfold Clock.advance.
  by destruct (Z.eqb_spec (Clock.state self) 0).
Qed.

(** A clock that has ticked before appends. *)
Lemma clock_ticks_append (snapshots : list string) (self : Clock.t)
    (files : gmap string string) :
  0 < Clock.state self ->
  Clock.state (clock_ticks snapshots self files).1 =
    Clock.state self + Z.of_nat (length snapshots) /\
  (snapshots <> [] ->
   (clock_ticks snapshots self files).2 !! Clock.log_file_path self =
     Some (default "" (files !! Clock.log_file_path self)
           +:+ log_text snapshots)) /\
  (forall p, p <> Clock.log_file_path self ->
     (clock_ticks snapshots self files).2 !! p = files !! p).
Proof.
  revert self files. induction snapshots as [|cpu rest IH]; intros self files Hs.
  - simpl. split_and!; [lia | done | done].
  - rewrite clock_ticks_cons, Clock_advance_later by lia. cbn [fst snd].
    set (old := default "" (files !! Clock.log_file_path self)).
    match goal with
    | |- context [clock_ticks rest ?c ?f] =>
        destruct (IH c f) as (Hstate & Hlog & Hother); [simpl; lia|]
    end.
    cbn [Clock.state Clock.log_file_path] in Hstate, Hlog, Hother.
    split_and!.
    + rewrite Hstate. simpl length. lia.
    + intros _. destruct rest as [|cpu' rest'].
      * cbn [clock_ticks snd log_text].
        rewrite lookup_insert_eq. by rewrite append_empty_r.
      * rewrite Hlog by done. f_equal.
        rewrite lookup_insert_eq.
        cbn [default log_text]. unfold id. by rewrite !append_assoc.
    + intros p Hp. rewrite Hother by done.
      by rewrite lookup_insert_ne.
Qed.

(** X23. From a new clock, one [advance] per snapshot leaves the step
    counter at the number of snapshots and the log file holding exactly
    the snapshots, each followed by a line break, whatever the file held
    before; no other file is touched. *)
Theorem Clock_log (path : string) (snapshots : list string)
    (files : gmap string string) :
  snapshots <> [] ->
  Clock.state (clock_ticks snapshots (Clock.init path) files).1 =
    Z.of_nat (length snapshots) /\
  (clock_ticks snapshots (Clock.init path) files).2 !! path =
    Some (log_text snapshots) /\
  (forall p, p <> path ->
     (clock_ticks snapshots (Clock.init path) files).2 !! p = files !! p).
Proof.
  intros Hne. destruct snapshots as [|cpu rest]; [done|].
  rewrite clock_ticks_cons.
  change (Clock.advance (Clock.init path) cpu files)
    with ({| Clock.state := 1; Clock.on := true; Clock.log_file_path := path |},
          <[path := cpu +:+ Clock.newline]> files).
  cbn [fst snd].
  match goal with
  | |- context [clock_ticks rest ?c ?f] =>
      destruct (clock_ticks_append rest c f) as (Hstate & Hlog & Hother);
        [simpl; lia|]
  end.
  cbn [Clock.state Clock.log_file_path] in Hstate, Hlog, Hother.
  split_and!.
  - rewrite Hstate. simpl length. lia.
  - destruct rest as [|cpu' rest'].
    + cbn [clock_ticks snd log_text].
      rewrite lookup_insert_eq. by rewrite append_empty_r.
    + rewrite Hlog by done. f_equal.
      rewrite lookup_insert_eq.
      cbn [default log_text]. unfold id. by rewrite !append_assoc.
  - intros p Hp. rewrite Hother by done.
    by rewrite lookup_insert_ne.
Qed.

Lemma Clock_log_witness :
  (clock_ticks ["cpu at step 0"; "cpu at step 1"] (Clock.init "log.txt")
     {["log.txt" := "an older log"]}).2 !! "log.txt" =
    Some (log_text ["cpu at step 0"; "cpu at step 1"]).
Proof.
  destruct (Clock_log "log.txt" ["cpu at step 0"; "cpu at step 1"]
              {["log.txt" := "an older log"]}) as (_ & Hlog & _);
    [discriminate|].
  exact Hlog.
Defined.
